(** * Accommodation Finder backend: slot conflicts, view counting, analytics

    A shallow embedding of the parts of the Express/Mongoose backend that
    decide the availability and analytics properties of the specification:

    - [controllers/expertController.js] ([bookConsultation],
      [checkExpertAvailability]) with the schemas of
      [models/ExpertConsultation.js] and [models/CommunicationLog.js];
    - [routes/bookings.js] ([POST /visit]) and [routes/owner.js]
      ([PUT /booking/:id/respond]) with the schema of [models/Booking.js];
    - the property detail route ([GET /:id]) with its view de-duplication;
    - the analytics computations ([conversionRate], [averageRating]).

    Collections are lists of documents in insertion order, [findOne] is the
    first match, an [await]ed call that rejects is a [Throw], and a handler's
    [try]/[catch] turns a [Throw] into its 500 answer while the writes done
    before the throw stay in the store.  Where a route queries by the id
    of its URL, the cast of that id to an ObjectId is a parameter
    [isObjectId] of the handler.  Messages written in the repository are
    verbatim; those of errors raised by Mongoose or the runtime are
    abbreviated. *)

From Stdlib Require Import ZArith String Ascii List Bool Lia Floats.
From stdpp Require Import base option list gmap strings.

Open Scope string_scope.
Open Scope Z_scope.

(** ** Effects: a store threaded through calls that may throw *)

Inductive Outcome (A : Type) : Type :=
| Return (a : A)
| Throw (err : string).
Arguments Return {A} a.
Arguments Throw {A} err.

Definition Eff (S A : Type) : Type := S -> Outcome A * S.

#[global] Instance Eff_ret {S} : MRet (Eff S) :=
  fun A a s => (Return a, s).

#[global] Instance Eff_bind {S} : MBind (Eff S) :=
  fun A B f m s =>
    match m s with
    | (Return a, s') => f a s'
    | (Throw e, s') => (Throw e, s')
    end.

Definition throw {S A} (e : string) : Eff S A := fun s => (Throw e, s).
Definition reads {S A} (f : S -> A) : Eff S A := fun s => (Return (f s), s).
Definition modify {S} (f : S -> S) : Eff S unit := fun s => (Return tt, f s).

(** [try { body } catch (error) { handler }]: the store keeps what [body]
    wrote before it threw. *)
Definition tryCatch {S A} (body : Eff S A) (handler : string -> A) : S -> A * S :=
  fun s =>
    match body s with
    | (Return a, s') => (a, s')
    | (Throw e, s') => (handler e, s')
    end.

(** What [res.status(c).json(...)] sends. *)
Inductive Payload (D : Type) : Type :=
| Message (message : string)
| Failure (message error : string)
| Errors (errors : list string)
| Document (doc : D).
Arguments Message {D} message.
Arguments Failure {D} message error.
Arguments Errors {D} errors.
Arguments Document {D} doc.

Record Response (D : Type) : Type := Respond { code : Z; payload : Payload D }.
Arguments Respond {D} code payload.
Arguments code {D} r.
Arguments payload {D} r.

(** MongoDB compares strings byte by byte; [$in] and [$nin] on a string. *)
Definition str_lt (a b : string) : bool := String.ltb a b.
Definition str_gt (a b : string) : bool := String.ltb b a.
Definition str_gte (a b : string) : bool := negb (String.ltb a b).
Definition str_in (s : string) (l : list string) : bool := existsb (String.eqb s) l.

(** [String.prototype.trim], which a schema path with [trim: true] applies
    to the string it is given: white space and line terminators are
    removed from both ends.  Strings are UTF-8 text; the characters
    removed are U+0009 to U+000D, U+0020, U+00A0, U+1680, U+2000 to
    U+200A, U+2028, U+2029, U+202F, U+205F, U+3000 and U+FEFF. *)
Definition byte (c : ascii) : Z := Z.of_N (N_of_ascii c).

Definition space1 (a : ascii) : bool :=
  ((9 <=? byte a) && (byte a <=? 13)) || (byte a =? 32).

Definition space2 (a b : ascii) : bool := (byte a =? 194) && (byte b =? 160).

Definition space3 (a b c : ascii) : bool :=
  ((byte a =? 225) && (byte b =? 154) && (byte c =? 128))
  || ((byte a =? 226) && (byte b =? 128)
      && (((128 <=? byte c) && (byte c <=? 138))
          || (byte c =? 168) || (byte c =? 169) || (byte c =? 175)))
  || ((byte a =? 226) && (byte b =? 129) && (byte c =? 159))
  || ((byte a =? 227) && (byte b =? 128) && (byte c =? 128))
  || ((byte a =? 239) && (byte b =? 187) && (byte c =? 191)).

(** The text without its leading white space; with [back] the text is
    read from its end, the bytes of a character last to first. *)
Fixpoint dropSpace (back : bool) (l : list ascii) : list ascii :=
  match l with
  | [] => []
  | a :: r =>
      if space1 a then dropSpace back r
      else
        match r with
        | [] => l
        | b :: r2 =>
            if (if back then space2 b a else space2 a b) then dropSpace back r2
            else
              match r2 with
              | [] => l
              | c :: r3 =>
                  if (if back then space3 c b a else space3 a b c)
                  then dropSpace back r3
                  else l
              end
        end
  end.

Definition trim (s : string) : string :=
  string_of_list_ascii
    (rev (dropSpace true (rev (dropSpace false (list_ascii_of_string s))))).

(** ** Expert consultations *)

Module Consultations.

(** [models/ExpertConsultation.js], the [status] enum. *)
Inductive Status : Type := scheduled | confirmed | completed | cancelled | no_show.

Definition status_name (s : Status) : string :=
  match s with
  | scheduled => "scheduled"
  | confirmed => "confirmed"
  | completed => "completed"
  | cancelled => "cancelled"
  | no_show => "no-show"
  end.

(** The fields of a consultation document that [bookConsultation] sets.
    [date] is the instant (ms since the epoch) the request's value casts to;
    the times are the "HH:MM" strings as received; [amount] is a Number. *)
Record ExpertConsultation : Type := {
  user : string;
  expert : string;
  date : Z;
  startTime : string;
  endTime : string;
  notes : string;
  amount : float;
  status : Status
}.

(** [models/Expert.js]: the fields read here. *)
Record Expert : Type := {
  expert_id : string;
  expert_user : string;
  consultationFee : float
}.

(** [models/CommunicationLog.js]: the fields [logConsultationActivity] sets. *)
Record CommunicationLog : Type := {
  log_user : string;
  log_type : string;
  log_direction : string;
  log_subject : string;
  log_content : string;
  log_relatedTo : string;
  log_referenceModel : string;
  log_initiatedBy : string
}.

(** [models/Notification.js]: the fields [notifyExpertAboutBooking] sets. *)
Record Notification : Type := {
  notif_user : string;
  notif_type : string;
  notif_title : string;
  notif_message : string;
  notif_priority : string
}.

Record Store : Type := {
  experts : list Expert;
  consultations : list ExpertConsultation;
  communicationLogs : list CommunicationLog;
  notifications : list Notification;
  emitted : list (string * string)
}.

Definition with_consultations (f : list ExpertConsultation -> list ExpertConsultation)
    (db : Store) : Store :=
  {| experts := experts db; consultations := f (consultations db);
     communicationLogs := communicationLogs db; notifications := notifications db;
     emitted := emitted db |}.

Definition with_communicationLogs (f : list CommunicationLog -> list CommunicationLog)
    (db : Store) : Store :=
  {| experts := experts db; consultations := consultations db;
     communicationLogs := f (communicationLogs db); notifications := notifications db;
     emitted := emitted db |}.

Definition with_notifications (f : list Notification -> list Notification)
    (db : Store) : Store :=
  {| experts := experts db; consultations := consultations db;
     communicationLogs := communicationLogs db; notifications := f (notifications db);
     emitted := emitted db |}.

Definition with_emitted (f : list (string * string) -> list (string * string))
    (db : Store) : Store :=
  {| experts := experts db; consultations := consultations db;
     communicationLogs := communicationLogs db; notifications := notifications db;
     emitted := f (emitted db) |}.

(** [req.body] of [bookConsultation] together with [req.user.id]; [expertId]
    is an id that casts to an ObjectId and [req_date] the instant the date
    casts to. *)
Record BookRequest : Type := {
  req_user : string;
  expertId : string;
  req_date : Z;
  req_startTime : string;
  req_endTime : string;
  req_notes : string
}.

(** The filter of [checkExpertAvailability], lines 120-128:
    [{ expert, date, $or: [ {startTime: {$lt: endTime}, endTime: {$gt: startTime}},
                            {startTime: {$gte: startTime, $lt: endTime}} ],
       status: {$nin: ['cancelled', 'rejected']} }]. *)
Definition slotFilter (expertId : string) (d : Z) (start finish : string)
    (c : ExpertConsultation) : bool :=
  String.eqb (expert c) expertId
  && (date c =? d)
  && ((str_lt (startTime c) finish && str_gt (endTime c) start)
      || (str_gte (startTime c) start && str_lt (startTime c) finish))
  && negb (str_in (status_name (status c)) ["cancelled"; "rejected"]).

Definition checkAvailable (cs : list ExpertConsultation)
    (expertId : string) (d : Z) (start finish : string) : bool :=
  match find (slotFilter expertId d start finish) cs with
  | Some _ => false
  | None => true
  end.

Definition checkExpertAvailability (expertId : string) (d : Z) (start finish : string)
    : Eff Store bool :=
  reads (fun db => checkAvailable (consultations db) expertId d start finish).

Definition Expert_findById (id : string) : Eff Store (option Expert) :=
  reads (fun db => find (fun e => String.eqb (expert_id e) id) (experts db)).

(** [action.replace(/_/g, ' ')]. *)
Fixpoint replaceUnderscores (s : string) : string :=
  match s with
  | EmptyString => EmptyString
  | String c r =>
      String (if Ascii.eqb c "_"%char then " "%char else c) (replaceUnderscores r)
  end.

(** Schema validation of a [CommunicationLog] on save: the [enum] lists of
    [type], [direction], [relatedTo] and [referenceModel], and the required
    [content]. *)
Definition validCommunicationLog (l : CommunicationLog) : bool :=
  str_in (log_type l) ["chat"; "ticket"; "email"; "whatsapp"; "call"; "notification"]
  && str_in (log_direction l) ["inbound"; "outbound"]
  && negb (String.eqb (log_content l) "")
  && str_in (log_relatedTo l) ["booking"; "property"; "payment"; "account"; "general"; "support"]
  && str_in (log_referenceModel l) ["Chat"; "Ticket"; "ExpertConsultation"; "Booking"; "User"].

(** [CommunicationLog.log]: save, and rethrow what the save threw. *)
Definition CommunicationLog_log (l : CommunicationLog) : Eff Store unit :=
  if validCommunicationLog l
  then modify (with_communicationLogs (fun ls => (ls ++ [l])%list))
  else throw "CommunicationLog validation failed".

Definition logConsultationActivity (c : ExpertConsultation) (action userId : string)
    : Eff Store unit :=
  CommunicationLog_log
    {| log_user := userId;
       log_type := "consultation";
       log_direction := "outbound";
       log_subject := "Consultation " ++ replaceUnderscores action;
       log_content := "Consultation was " ++ replaceUnderscores action;
       log_relatedTo := "consultation";
       log_referenceModel := "ExpertConsultation";
       log_initiatedBy := userId |}.

(** Schema validation of a [Notification] on save: the [type] and
    [priority] enums. *)
Definition validNotification (n : Notification) : bool :=
  str_in (notif_type n)
    ["enquiry_created"; "enquiry_replied"; "visit_requested"; "visit_responded"; "general"]
  && str_in (notif_priority n) ["low"; "normal"; "high"].

Section Handlers.

(** [clock t] is [new Date(`1970-01-01T${t}:00`)] in ms, [None] for an
    Invalid Date; [app_io] tells whether [require('../app').io] is a hub. *)
Variable clock : string -> option Z.
Variable app_io : bool.

(** [start >= end] on two [Date]s: false as soon as one is invalid. *)
Definition date_ge (a b : option Z) : bool :=
  match a, b with
  | Some x, Some y => y <=? x
  | _, _ => false
  end.

(** The pre-save hook of the schema, lines 107-131, for a new document. *)
Definition preSave (c : ExpertConsultation) : Eff Store unit :=
  if date_ge (clock (startTime c)) (clock (endTime c))
  then throw "End time must be after start time"
  else
    existing ← reads (fun db =>
      find (fun x => String.eqb (expert x) (expert c)
                     && (date x =? date c)
                     && String.eqb (startTime x) (startTime c)
                     && str_in (status_name (status x)) ["scheduled"; "confirmed"])
           (consultations db));
    match existing with
    | Some _ => throw "This time slot is already booked"
    | None => mret tt
    end.

(** The required strings and [amount: { min: 0 }] of the schema; the
    comparison fails for NaN. *)
Definition validConsultation (c : ExpertConsultation) : bool :=
  negb (String.eqb (user c) "")
  && negb (String.eqb (expert c) "")
  && negb (String.eqb (startTime c) "")
  && negb (String.eqb (endTime c) "")
  && (0 <=? amount c)%float.

(** The unique index [{ date: 1, startTime: 1, expert: 1 }]. *)
Definition duplicateKey (c : ExpertConsultation) (cs : list ExpertConsultation) : bool :=
  existsb (fun x => (date x =? date c)
                    && String.eqb (startTime x) (startTime c)
                    && String.eqb (expert x) (expert c)) cs.

(** [consultation.save()] of a new document: validation, the pre-save hook,
    then the insert under the unique index. *)
Definition save (c : ExpertConsultation) : Eff Store unit :=
  if negb (validConsultation c)
  then throw "ExpertConsultation validation failed"
  else
    _ ← preSave c;
    dup ← reads (fun db => duplicateKey c (consultations db));
    if (dup : bool)
    then throw "E11000 duplicate key error"
    else modify (with_consultations (fun cs => (cs ++ [c])%list)).

(** [notifyExpertAboutBooking], lines 167-187; the message is shortened by
    the date it ends with. *)
Definition notifyExpertAboutBooking (c : ExpertConsultation) : Eff Store unit :=
  e ← Expert_findById (expert c);
  match e with
  | None => mret tt
  | Some e =>
      let notification :=
        {| notif_user := expert_user e;
           notif_type := "new_consultation";
           notif_title := "New Consultation Booked";
           notif_message := "You have a new consultation booked";
           notif_priority := "high" |} in
      if negb (validNotification notification)
      then throw "Notification validation failed"
      else
        _ ← modify (with_notifications (fun ns => (ns ++ [notification])%list));
        if app_io
        then
          let room := ("user_" ++ expert_user e)%string in
          modify (with_emitted (fun es => (es ++ [(room, "notification")])%list))
        else throw "Cannot read properties of undefined (reading 'to')"
  end.

(** [exports.bookConsultation], lines 50-82; the schema trims [notes]
    when the document is built. *)
Definition bookConsultation (req : BookRequest)
    : Store -> Response ExpertConsultation * Store :=
  tryCatch
    (e ← Expert_findById (expertId req);
     match e with
     | None => mret (Respond 404 (Message "Expert not found"))
     | Some e =>
         isAvailable ← checkExpertAvailability (expertId req) (req_date req)
                         (req_startTime req) (req_endTime req);
         if negb isAvailable
         then mret (Respond 400 (Message "Selected time slot is not available"))
         else
           let consultation :=
             {| user := req_user req;
                expert := expertId req;
                date := req_date req;
                startTime := req_startTime req;
                endTime := req_endTime req;
                notes := trim (req_notes req);
                amount := consultationFee e;
                status := scheduled |} in
           _ ← save consultation;
           _ ← logConsultationActivity consultation "booked" (req_user req);
           _ ← notifyExpertAboutBooking consultation;
           mret (Respond 201 (Document consultation))
     end)
    (fun error => Respond 500 (Failure "Failed to book consultation" error)).

End Handlers.

(** The answer of [bookConsultation] to an unavailable slot. *)
Definition SlotUnavailable : Response ExpertConsultation :=
  Respond 400 (Message "Selected time slot is not available").

(** Half-open overlap of a stored window with a requested one, in the
    order the store compares times. *)
Definition overlaps (c : ExpertConsultation) (start finish : string) : Prop :=
  str_lt (startTime c) finish = true /\ str_gt (endTime c) start = true.

(** A strict reading of a time of day, used as the clock of the examples:
    for "HH:MM" with HH in 00..23 and MM in 00..59, and for "24:00", it
    is what [Date] computes, and it takes every other string for an
    Invalid Date. *)
Definition digit (c : ascii) : option Z :=
  let n := Z.of_nat (nat_of_ascii c) in
  if (48 <=? n) && (n <=? 57) then Some (n - 48) else None.

Definition hhmm (t : string) : option Z :=
  match t with
  | String h1 (String h2 (String ":" (String m1 (String m2 EmptyString)))) =>
      match digit h1, digit h2, digit m1, digit m2 with
      | Some a, Some b, Some c, Some d =>
          let h := 10 * a + b in
          let m := 10 * c + d in
          if ((h <? 24) && (m <? 60)) || ((h =? 24) && (m =? 0))
          then Some ((h * 60 + m) * 60000) else None
      | _, _, _, _ => None
      end
  | _ => None
  end.

End Consultations.

(** ** Visit bookings and the owner's answer *)

Module Bookings.

(** [models/Property.js]: what the two handlers read of a property. *)
Record Property : Type := {
  property_id : string;
  property_owner : string
}.

(** [models/Booking.js].  [status] and [bookingType] are the strings the
    handlers assign; the schema's enums are checked on save. *)
Record Booking : Type := {
  booking_id : string;
  user : string;
  property : string;
  owner : string;
  bookingType : string;
  status : string;
  visitDate : option Z;
  visitTimeSlot : string;
  notes : string
}.

Record Notification : Type := {
  notif_recipient : string;
  notif_type : string;
  notif_title : string
}.

Record Store : Type := {
  properties : list Property;
  bookings : list Booking;
  notifications : list Notification
}.

Definition with_bookings (f : list Booking -> list Booking) (db : Store) : Store :=
  {| properties := properties db; bookings := f (bookings db);
     notifications := notifications db |}.

Definition with_notifications (f : list Notification -> list Notification)
    (db : Store) : Store :=
  {| properties := properties db; bookings := bookings db;
     notifications := f (notifications db) |}.

(** The identifiers bound at the top of each module by [require]. *)
Definition bookings_js_scope : list string :=
  ["express"; "router"; "body"; "validationResult"; "Booking"; "Property"; "User";
   "auth"; "authorize"].

Definition owner_js_scope : list string :=
  ["express"; "router"; "body"; "validationResult"; "Property"; "Booking"; "Enquiry";
   "Favorite"; "auth"; "authorize"].

(** Evaluating an identifier: a [ReferenceError] when the module never
    bound it. *)
Definition resolve (scope : list string) (name : string) : Eff Store unit :=
  if str_in name scope then mret tt else throw (name ++ " is not defined").

(** An inner [try { body } catch (e) { console.warn(...) }]. *)
Definition attempt (body : Eff Store unit) : Eff Store unit :=
  fun db =>
    match body db with
    | (Return _, db') => (Return tt, db')
    | (Throw _, db') => (Return tt, db')
    end.

Definition Property_findById (id : string) : Eff Store (option Property) :=
  reads (fun db => find (fun p => String.eqb (property_id p) id) (properties db)).

Definition Booking_findById (id : string) : Eff Store (option Booking) :=
  reads (fun db => find (fun b => String.eqb (booking_id b) id) (bookings db)).

(** Schema validation on save: the required references, the two enums, and
    the date and slot a visit requires. *)
Definition validBooking (b : Booking) : bool :=
  negb (String.eqb (user b) "")
  && negb (String.eqb (property b) "")
  && negb (String.eqb (owner b) "")
  && str_in (bookingType b) ["visit"; "booking"; "application"]
  && str_in (status b) ["pending"; "confirmed"; "cancelled"; "completed"]
  && (negb (String.eqb (bookingType b) "visit")
      || (match visitDate b with Some _ => true | None => false end
          && negb (String.eqb (visitTimeSlot b) ""))).

(** [booking.save()] of a new document. *)
Definition Booking_insert (b : Booking) : Eff Store unit :=
  if validBooking b
  then modify (with_bookings (fun bs => (bs ++ [b])%list))
  else throw "Booking validation failed".

(** [booking.save()] of a document read from the store. *)
Definition Booking_update (b : Booking) : Eff Store unit :=
  if validBooking b
  then modify (with_bookings
                 (map (fun x => if String.eqb (booking_id x) (booking_id b) then b else x)))
  else throw "Booking validation failed".

Definition Notification_create (n : Notification) : Eff Store unit :=
  modify (with_notifications (fun ns => (ns ++ [n])%list)).

(** The request of [POST /api/bookings/visit] as its handler sees it:
    [visit_errors] is [validationResult(req).array()], [visit_user] is
    [req.user.id], the rest is [req.body]. *)
Record VisitRequest : Type := {
  visit_errors : list string;
  visit_user : string;
  visit_property : string;
  visit_visitDate : string;
  visit_visitTimeSlot : string;
  visit_notes : string
}.

(** The filter of the duplicate-request check, lines 36-41. *)
Definition existingVisitFilter (userId propertyId : string) (b : Booking) : bool :=
  String.eqb (user b) userId
  && String.eqb (property b) propertyId
  && String.eqb (bookingType b) "visit"
  && str_in (status b) ["pending"; "confirmed"].

Definition AlreadyPending : Response Booking :=
  Respond 400 (Message "You already have a pending visit request for this property").

Section Visit.

(** [newDate s] is [new Date(s)] in ms, [None] for an Invalid Date;
    [newId] is the [_id] the new document receives. *)
Variable newDate : string -> option Z.
Variable newId : string.

(** [router.post('/visit')], lines 20-91.  The [populate] after the save
    only fills the answer; the notification sits in an inner [try]. *)
Definition scheduleVisit (req : VisitRequest) : Store -> Response Booking * Store :=
  tryCatch
    (match visit_errors req with
     | _ :: _ => mret (Respond 400 (Errors (visit_errors req)))
     | [] =>
         p ← Property_findById (visit_property req);
         match p with
         | None => mret (Respond 404 (Message "Property not found"))
         | Some p =>
             existingVisit ← reads (fun db =>
               find (existingVisitFilter (visit_user req) (visit_property req)) (bookings db));
             match existingVisit with
             | Some _ => mret AlreadyPending
             | None =>
                 let booking :=
                   {| booking_id := newId;
                      user := visit_user req;
                      property := visit_property req;
                      owner := property_owner p;
                      bookingType := "visit";
                      status := "pending";
                      visitDate := newDate (visit_visitDate req);
                      visitTimeSlot := visit_visitTimeSlot req;
                      notes := visit_notes req |} in
                 _ ← Booking_insert booking;
                 _ ← attempt
                       (_ ← resolve bookings_js_scope "Notification";
                        Notification_create
                          {| notif_recipient := property_owner p;
                             notif_type := "visit_requested";
                             notif_title := "New visit request" |});
                 mret (Respond 201 (Document booking))
             end
         end
     end)
    (fun _ => Respond 500 (Message "Server error")).

End Visit.

(** The request of [PUT /api/owner/booking/:id/respond]: [respond_user] is
    [req.user.id], [respond_id] is [req.params.id], the rest is [req.body]. *)
Record RespondRequest : Type := {
  respond_user : string;
  respond_id : string;
  respond_status : string;
  respond_message : string
}.

(** [body('status').isIn(['confirmed', 'rejected'])]; the optional
    [message] adds no error. *)
Definition respond_errors (req : RespondRequest) : list string :=
  if str_in (respond_status req) ["confirmed"; "rejected"] then [] else ["Invalid value"].

Definition set_status (s : string) (b : Booking) : Booking :=
  {| booking_id := booking_id b; user := user b; property := property b;
     owner := owner b; bookingType := bookingType b; status := s;
     visitDate := visitDate b; visitTimeSlot := visitTimeSlot b; notes := notes b |}.

(** [router.put('/booking/:id/respond')], lines 89-130.  [ownerResponse]
    and [respondedAt] are not paths of the schema and are not stored. *)
Definition respondToBooking (req : RespondRequest) : Store -> Response Booking * Store :=
  tryCatch
    (match respond_errors req with
     | _ :: _ => mret (Respond 400 (Errors (respond_errors req)))
     | [] =>
         b ← Booking_findById (respond_id req);
         match b with
         | None => mret (Respond 404 (Message "Booking not found"))
         | Some b =>
             p ← Property_findById (property b);
             match p with
             | None => throw "Cannot read properties of null (reading 'owner')"
             | Some p =>
                 if negb (String.eqb (property_owner p) (respond_user req))
                 then mret (Respond 403 (Message "Access denied"))
                 else
                   let booking := set_status (respond_status req) b in
                   _ ← Booking_update booking;
                   _ ← resolve owner_js_scope "Notification";
                   _ ← Notification_create
                         {| notif_recipient := user booking;
                            notif_type :=
                              if String.eqb (respond_status req) "confirmed"
                              then "booking_confirmed" else "booking_rejected";
                            notif_title := "Booking " ++ respond_status req |};
                   mret (Respond 200 (Document booking))
             end
         end
     end)
    (fun _ => Respond 500 (Message "Server error")).

Definition ServerError : Response Booking := Respond 500 (Message "Server error").

End Bookings.

(** ** JavaScript numbers: the operations the analytics use *)

Module JsNumber.

(** An integer as a Number: the nearest double. *)
Definition of_Z (z : Z) : float := SF2Prim (binary_normalize 53 1024 z 0 false).

(** The decimal string [toFixed] prints: [Fixed neg n f] is the digits of
    [n] with [f] of them after the point and a leading "-" when [neg];
    [Verbatim x] is a string that reads back as [x] itself ("NaN",
    "Infinity", or the exponent form of a magnitude from 1e21 on). *)
Inductive Numeral : Type :=
| Fixed (negative : bool) (n : Z) (f : nat)
| Verbatim (x : float).

(** The integer [n] for which [n / 10^f - m * 2^e] is closest to zero, the
    larger one of two. *)
Definition nearest (f : nat) (m : positive) (e : Z) : Z :=
  if 0 <=? e
  then Z.pos m * 2 ^ e * 10 ^ Z.of_nat f
  else (2 * Z.pos m * 10 ^ Z.of_nat f + 2 ^ (- e)) / 2 ^ (1 - e).

(** The magnitudes [toFixed] prints in fixed notation: below 1e21. *)
Definition inRange (x : float) : bool := ((x <? 1e21) && (-1e21 <? x))%float.

(** [Number.prototype.toFixed(f)]. *)
Definition toFixed (f : nat) (x : float) : Numeral :=
  match Prim2SF x with
  | S754_zero _ => Fixed false 0 f
  | S754_finite s m e =>
      if inRange x then Fixed s (nearest f m e) f else Verbatim x
  | _ => Verbatim x
  end.

(** [parseFloat] of such a string: the double nearest to the decimal. *)
Definition parseFloat (s : Numeral) : float :=
  match s with
  | Verbatim x => x
  | Fixed neg n f =>
      match n with
      | Z.pos p =>
          SF2Prim (SFdiv 53 1024 (S754_finite neg p 0)
                     (S754_finite false (Z.to_pos (10 ^ Z.of_nat f)) 0))
      | _ => if neg then (-0)%float else 0%float
      end
  end.

(** [Math.round]: the integer nearest to [x], the larger one of two. *)
Definition Math_round (x : float) : float :=
  match Prim2SF x with
  | S754_finite s m e =>
      if 0 <=? e then x
      else
        let k := (2 * (if s then Z.neg m else Z.pos m) + 2 ^ (- e)) / 2 ^ (1 - e) in
        if k =? 0 then (if s then (-0)%float else 0%float) else of_Z k
  | _ => x
  end.

(** [x || 0] on a Number. *)
Definition orZero (x : float) : float :=
  match Prim2SF x with
  | S754_zero _ | S754_nan => 0%float
  | _ => x
  end.

(** Reading a double exactly: a finite double of mantissa [m] and exponent
    [e] is the fraction [fraction m e], with [signed s m] for its signed
    mantissa. *)
Definition signed (s : bool) (m : positive) : Z := if s then Z.neg m else Z.pos m.

Definition fraction (m : Z) (e : Z) : Z * Z :=
  if 0 <=? e then (m * 2 ^ e, 1) else (m, 2 ^ (- e)).

(** [n / 10^f] is a decimal with [f] places nearest to the fraction [p / q]. *)
Definition roundedTo (f : nat) (pq : Z * Z) (n : Z) : Prop :=
  let '(p, q) := pq in
  2 * Z.abs (n * q - p * 10 ^ Z.of_nat f) <= q.

End JsNumber.

(** ** The property detail route and its view counter *)

Module Views.

Import JsNumber.

(** An element of [viewedBy] ([models/Property.js], lines 158-168). *)
Record View : Type := {
  view_user : option string;
  viewedAt : Z;
  ipAddress : string
}.

(** The fields of a property the route reads or writes.  [owner] is the
    id of a user that exists, so that [populate('owner')] resolves it:
    the route that deletes an owner's account deletes the owner's
    properties with it. *)
Record Property : Type := {
  owner : string;
  isActive : bool;
  isVisible : bool;
  viewedBy : list View;
  analytics_views : Z;
  analytics_bookings : Z
}.

Record Review : Type := {
  review_property : string;
  rating : Z;
  review_isActive : bool
}.

Record Store : Type := {
  properties : gmap string Property;
  reviews : list Review
}.

(** [req.params.id], [req.user?._id] when it is truthy, and
    [req.ip || req.connection.remoteAddress]. *)
Record DetailRequest : Type := {
  id : string;
  userId : option string;
  userIP : string
}.

(** What the route adds to the property in its answer. *)
Record Detail : Type := {
  detail_property : Property;
  detail_averageRating : float;
  detail_reviewCount : Z
}.

Definition day : Z := 24 * 60 * 60 * 1000.

(** [{ $push: { viewedBy: v }, $inc: { 'analytics.views': 1 } }]. *)
Definition pushView (v : View) (p : Property) : Property :=
  {| owner := owner p; isActive := isActive p; isVisible := isVisible p;
     viewedBy := (viewedBy p ++ [v])%list;
     analytics_views := analytics_views p + 1;
     analytics_bookings := analytics_bookings p |}.

Definition findByIdAndUpdate (i : string) (f : Property -> Property) : Eff Store unit :=
  modify (fun db => {| properties := alter f i (properties db); reviews := reviews db |}).

(** [view.user && view.user.toString() === userId.toString()]. *)
Definition viewedByUser (u : string) (v : View) : bool :=
  match view_user v with
  | Some w => String.eqb w u
  | None => false
  end.

(** [view.ipAddress === userIP && new Date() - new Date(view.viewedAt) < day]. *)
Definition viewedFromIP (now : Z) (ip : string) (v : View) : bool :=
  String.eqb (ipAddress v) ip && (now - viewedAt v <? day).

(** The sum of the ratings, as [reduce] adds them from 0. *)
Definition sumRatings (rs : list Review) : Z :=
  fold_left (fun sum r => sum + rating r) rs 0.

(** Lines 220-227: the mean, then [Math.round(averageRating * 10) / 10]. *)
Definition detailAverageRating (rs : list Review) : float :=
  let averageRating :=
    if (0 <? Z.of_nat (length rs))
    then (of_Z (sumRatings rs) / of_Z (Z.of_nat (length rs)))%float
    else 0%float in
  (Math_round (averageRating * 10) / 10)%float.

Section Detail.

(** [isObjectId s] tells whether Mongoose casts the string [s] to an
    ObjectId, as it does with the [_id] of a query before the query runs. *)
Variable isObjectId : string -> bool.

(** The clock read by the duplicate check, and the clock read when the
    view record is written. *)
Variable now : Z.
Variable stamp : Z.

(** [Property.findById(i)]: the property whose [_id] is [i]; when there is
    none, [null] for an id that casts and a CastError for one that does
    not.  The [_id] of a stored property is an ObjectId, so an id that
    names one casts. *)
Definition Property_findById (i : string) : Eff Store (option Property) :=
  fun db =>
    match properties db !! i with
    | Some p => (Return (Some p), db)
    | None =>
        if isObjectId i then (Return None, db)
        else (Throw "Cast to ObjectId failed", db)
    end.

(** The view tracking of [router.get('/:id')], lines 172-213. *)
Definition trackView (req : DetailRequest) (p : Property) : Eff Store unit :=
  match userId req with
  | Some u =>
      if negb (String.eqb (owner p) u)
      then
        if negb (existsb (viewedByUser u) (viewedBy p))
        then findByIdAndUpdate (id req)
               (pushView {| view_user := Some u; viewedAt := stamp; ipAddress := userIP req |})
        else mret tt
      else mret tt
  | None =>
      if negb (existsb (viewedFromIP now (userIP req)) (viewedBy p))
      then findByIdAndUpdate (id req)
             (pushView {| view_user := None; viewedAt := stamp; ipAddress := userIP req |})
      else mret tt
  end.

(** [router.get('/:id')], lines 163-235. *)
Definition getProperty (req : DetailRequest) : Store -> Response Detail * Store :=
  tryCatch
    (p ← Property_findById (id req);
     match p with
     | None => mret (Respond 404 (Message "Property not found"))
     | Some p =>
         _ ← trackView req p;
         rs ← reads (fun db =>
                List.filter (fun r => String.eqb (review_property r) (id req) && review_isActive r)
                       (reviews db));
         mret (Respond 200 (Document
                 {| detail_property := p;
                    detail_averageRating := detailAverageRating rs;
                    detail_reviewCount := Z.of_nat (length rs) |}))
     end)
    (fun _ => Respond 500 (Message "Server error")).

End Detail.

(** The payload [jwt.verify] decodes from a token: an object, here with
    the fields that are strings. *)
Definition Claims : Type := gmap string string.

(** What the detail route reads of an HTTP request: [req.params.id], the
    [Authorization] header after [replace('Bearer ', '')], and
    [req.ip || req.connection.remoteAddress]. *)
Record HttpRequest : Type := {
  params_id : string;
  authorization : option string;
  remoteAddress : string
}.

Section Route.

(** [verify token] is [jwt.verify(token, process.env.JWT_SECRET)], [None]
    when it throws. *)
Variable verify : string -> option Claims.
Variable isObjectId : string -> bool.
Variable now : Z.
Variable stamp : Z.

(** [optionalAuth], lines 148-160: [req.user] is the decoded payload of a
    token that verifies, and stays undefined otherwise. *)
Definition optionalAuth (r : HttpRequest) : option Claims :=
  match authorization r with
  | Some token => if String.eqb token "" then None else verify token
  | None => None
  end.

(** [req.user?._id], as far as the handler tells it from undefined. *)
Definition user_id (user : option Claims) : option string :=
  match user with
  | Some claims =>
      match claims !! "_id" with
      | Some u => if String.eqb u "" then None else Some u
      | None => None
      end
  | None => None
  end.

(** [router.get('/:id', optionalAuth, ...)]: the middleware, then the
    handler. *)
Definition getPropertyRoute (r : HttpRequest) : Store -> Response Detail * Store :=
  getProperty isObjectId now stamp
    {| id := params_id r;
       userId := user_id (optionalAuth r);
       userIP := remoteAddress r |}.

End Route.

(** The view counter of a property, 0 when the property is absent. *)
Definition views (db : Store) (i : string) : Z :=
  match properties db !! i with
  | Some p => analytics_views p
  | None => 0
  end.

Definition viewRecords (db : Store) (i : string) : list View :=
  match properties db !! i with
  | Some p => viewedBy p
  | None => []
  end.

End Views.

(** ** Owner analytics *)

Module Analytics.

Import JsNumber.

(** The documents [router.get('/analytics')] reads, with the fields it
    uses.  Counts and rating sums are integers far below 2^53, where
    Number arithmetic is exact; quotients are doubles. *)
Record Property : Type := {
  property_id : string;
  property_owner : string;
  isActive : bool;
  isVisible : bool;
  viewedBy_length : Z;
  analytics_views : Z;
  analytics_bookings : Z
}.

Record Booking : Type := { booking_property : string; tokenAmount : float }.
Record Review : Type := { review_property : string; rating : Z }.

Record Store : Type := {
  properties : list Property;
  bookings : list Booking;
  enquiries : list string;
  favorites : list string;
  reviews : list Review
}.

(** A JSON value that is a Number or the string [toFixed] printed. *)
Inductive JsValue : Type :=
| Num (x : float)
| Str (s : Numeral).

Record PropertyAnalytics : Type := {
  pa_property : string;
  pa_views : Z;
  pa_enquiries : Z;
  pa_bookings : Z;
  pa_favorites : Z;
  pa_reviews : Z;
  pa_revenue : float;
  pa_averageRating : JsValue
}.

Record OwnerAnalytics : Type := {
  totalProperties : Z;
  totalViews : Z;
  totalEnquiries : Z;
  totalBookings : Z;
  totalFavorites : Z;
  totalReviews : Z;
  conversionRate : float;
  averageRating : float;
  totalRevenue : float;
  propertyAnalytics : list PropertyAnalytics
}.

Definition count {A} (l : list A) : Z := Z.of_nat (length l).

(** [totalViews > 0 ? ((totalBookings / totalViews) * 100).toFixed(2) : 0],
    the value both analytics routes then pass to [parseFloat]. *)
Definition conversionRateValue (totalViews totalBookings : Z) : JsValue :=
  if 0 <? totalViews
  then Str (toFixed 2 (of_Z totalBookings / of_Z totalViews * 100)%float)
  else Num 0%float.

(** [parseFloat(v)]: a Number is first printed, which for 0 gives "0". *)
Definition parseFloatValue (v : JsValue) : float :=
  match v with
  | Str s => parseFloat s
  | Num x => x
  end.

Definition computeConversionRate (totalViews totalBookings : Z) : float :=
  parseFloatValue (conversionRateValue totalViews totalBookings).

Definition sumRatings (rs : list Review) : Z :=
  fold_left (fun sum r => sum + rating r) rs 0.

(** [reviews.length > 0 ? (sum / reviews.length).toFixed(1) : 0]. *)
Definition averageRatingValue (rs : list Review) : JsValue :=
  if 0 <? count rs
  then Str (toFixed 1 (of_Z (sumRatings rs) / of_Z (count rs))%float)
  else Num 0%float.

Definition revenue (bs : list Booking) : float :=
  fold_left (fun sum b => (sum + orZero (tokenAmount b))%float) bs 0%float.

Definition ofProperty {A} (key : A -> string) (p : Property) (l : list A) : list A :=
  List.filter (fun x => String.eqb (key x) (property_id p)) l.

(** [router.get('/analytics')] of [reviews.js], lines 469-549, on the
    documents the five queries return for the owner [ownerId]. *)
Definition ownerAnalytics (ownerId : string) (db : Store) : OwnerAnalytics :=
  let props :=
    List.filter (fun p => String.eqb (property_owner p) ownerId && isActive p && isVisible p)
                (properties db) in
  let mine {A} (key : A -> string) (l : list A) : list A :=
    List.filter (fun x => existsb (fun p => String.eqb (key x) (property_id p)) props) l in
  let bs := mine booking_property (bookings db) in
  let es := mine (fun e : string => e) (enquiries db) in
  let fs := mine (fun f : string => f) (favorites db) in
  let rs := mine review_property (reviews db) in
  let views := fold_left (fun sum p => sum + viewedBy_length p) props 0 in
  {| totalProperties := count props;
     totalViews := views;
     totalEnquiries := count es;
     totalBookings := count bs;
     totalFavorites := count fs;
     totalReviews := count rs;
     conversionRate := computeConversionRate views (count bs);
     averageRating := parseFloatValue (averageRatingValue rs);
     totalRevenue := revenue bs;
     propertyAnalytics :=
       map (fun p =>
              {| pa_property := property_id p;
                 pa_views := viewedBy_length p;
                 pa_enquiries := count (ofProperty (fun e : string => e) p es);
                 pa_bookings := count (ofProperty booking_property p bs);
                 pa_favorites := count (ofProperty (fun f : string => f) p fs);
                 pa_reviews := count (ofProperty review_property p rs);
                 pa_revenue := revenue (ofProperty booking_property p bs);
                 pa_averageRating := averageRatingValue (ofProperty review_property p rs) |})
           props |}.

(** [router.get('/analytics/:propertyId')] of [owner.js], lines 32-43:
    the conversion rate of one property from its counters. *)
Definition propertyConversionRate (p : Property) : float :=
  computeConversionRate (analytics_views p) (analytics_bookings p).

End Analytics.

(** * Properties *)

(** ** String order and membership *)

Lemma string_compare_refl (s : string) : String.compare s s = Eq.
Proof.
  pose proof (String.compare_antisym s s) as H.
  destruct (String.compare s s); simpl in H; congruence.
Qed.

Lemma str_lt_irrefl (s : string) : str_lt s s = false.
Proof. unfold str_lt, String.ltb. now rewrite string_compare_refl. Qed.

Lemma str_lt_asym (a b : string) : str_lt a b = true -> str_lt b a = false.
Proof.
  unfold str_lt, String.ltb. rewrite (String.compare_antisym b a).
  destruct (String.compare a b); simpl; congruence.
Qed.


Lemma find_is_Some {A} (f : A -> bool) (l : list A) (x : A) :
  In x l -> f x = true -> exists y, find f l = Some y.
Proof.
  intros Hin Hf. destruct (find f l) as [y|] eqn:E; [now exists y|].
  pose proof (find_none f l E x Hin). congruence.
Qed.

Lemma find_None_iff {A} (f : A -> bool) (l : list A) :
  find f l = None <-> (forall x, In x l -> f x = false).
Proof.
  split; [apply find_none|].
  intros H. destruct (find f l) as [y|] eqn:E; [|reflexivity].
  apply find_some in E as [Hin Hf]. rewrite (H y Hin) in Hf. discriminate.
Qed.

(** ** Consultations *)

Module ConsultationProofs.

Import Consultations.

(** The store and the requests of the specification's scenario: one
    confirmed consultation 14:00-15:00 of expert "e1" on 2024-06-01. *)
Definition june1 : Z := 1717200000000.

Definition expert1 : Expert :=
  {| expert_id := "e1"; expert_user := "u-expert"; consultationFee := 500%float |}.

Definition slot (st : Status) : ExpertConsultation :=
  {| user := "u1"; expert := "e1"; date := june1; startTime := "14:00";
     endTime := "15:00"; notes := ""; amount := 500%float; status := st |}.

Definition store (st : Status) : Store :=
  {| experts := [expert1]; consultations := [slot st]; communicationLogs := [];
     notifications := []; emitted := [] |}.

Definition request (start finish : string) : BookRequest :=
  {| req_user := "u2"; expertId := "e1"; req_date := june1;
     req_startTime := start; req_endTime := finish; req_notes := "" |}.

Lemma status_name_blocking (st : Status) :
  st <> cancelled -> str_in (status_name st) ["cancelled"; "rejected"] = false.
Proof. destruct st; intros H; try reflexivity. now elim H. Qed.

(** An overlapping consultation of the expert on the date matches the
    filter unless it is cancelled. *)
Lemma slotFilter_overlap (c : ExpertConsultation) (i : string) (d : Z) (s f : string) :
  expert c = i -> date c = d -> status c <> cancelled -> overlaps c s f ->
  slotFilter i d s f c = true.
Proof.
  intros He Hd Hs [H1 H2]. unfold slotFilter.
  rewrite He, Hd, String.eqb_refl, Z.eqb_refl, H1, H2.
  now rewrite (status_name_blocking _ Hs).
Qed.

Lemma checkAvailable_blocked (cs : list ExpertConsultation) (c : ExpertConsultation)
    (i : string) (d : Z) (s f : string) :
  In c cs -> slotFilter i d s f c = true -> checkAvailable cs i d s f = false.
Proof.
  intros Hin Hf. unfold checkAvailable.
  destruct (find_is_Some _ _ _ Hin Hf) as [y ->]. reflexivity.
Qed.

Lemma checkAvailable_free (cs : list ExpertConsultation) (i : string) (d : Z) (s f : string) :
  (forall c, In c cs -> slotFilter i d s f c = false) -> checkAvailable cs i d s f = true.
Proof.
  intros H. unfold checkAvailable.
  now rewrite (proj2 (find_None_iff _ _) H).
Qed.

Section Booking.

Variable clock : string -> option Z.
Variable app_io : bool.

Lemma book_no_expert (req : BookRequest) (db : Store) :
  find (fun e => String.eqb (expert_id e) (expertId req)) (experts db) = None ->
  bookConsultation clock app_io req db = (Respond 404 (Message "Expert not found"), db).
Proof.
  intros H. unfold bookConsultation, tryCatch, mbind, Eff_bind, Expert_findById, reads.
  rewrite H. reflexivity.
Qed.

Lemma book_unavailable (req : BookRequest) (db : Store) (e : Expert) :
  find (fun e => String.eqb (expert_id e) (expertId req)) (experts db) = Some e ->
  checkAvailable (consultations db) (expertId req) (req_date req)
    (req_startTime req) (req_endTime req) = false ->
  bookConsultation clock app_io req db = (SlotUnavailable, db).
Proof.
  intros He Ha.
  unfold bookConsultation, tryCatch, mbind, Eff_bind, Expert_findById,
    checkExpertAvailability, reads.
  rewrite He, Ha. reflexivity.
Qed.

(** C1. When a scheduled or confirmed consultation of the same expert on
    the same date overlaps the requested window (its start is before the
    requested end and its end is after the requested start),
    [bookConsultation] leaves the store as it was, so no consultation is
    created, and answers the slot-unavailable error; the only other
    answer, for an expert id that no expert carries, is the 404 of the
    lookup that precedes the check. *)
Theorem overlap_is_rejected (req : BookRequest) (db : Store) (c : ExpertConsultation) :
  In c (consultations db) ->
  expert c = expertId req ->
  date c = req_date req ->
  status c = scheduled \/ status c = confirmed ->
  overlaps c (req_startTime req) (req_endTime req) ->
  snd (bookConsultation clock app_io req db) = db
  /\ match find (fun e => String.eqb (expert_id e) (expertId req)) (experts db) with
     | Some _ => fst (bookConsultation clock app_io req db) = SlotUnavailable
     | None => fst (bookConsultation clock app_io req db)
               = Respond 404 (Message "Expert not found")
     end.
Proof.
  intros Hin He Hd Hs Ho.
  assert (Hc : status c <> cancelled) by (destruct Hs as [-> | ->]; discriminate).
  pose proof (checkAvailable_blocked _ _ _ _ _ _ Hin
                (slotFilter_overlap _ _ _ _ _ He Hd Hc Ho)) as Ha.
  destruct (find _ (experts db)) as [e|] eqn:E.
  - rewrite (book_unavailable req db e E Ha). now split.
  - rewrite (book_no_expert req db E). now split.
Qed.

End Booking.

Lemma overlap_is_rejected_witness :
  snd (bookConsultation hhmm true (request "14:30" "15:30") (store confirmed))
    = store confirmed
  /\ fst (bookConsultation hhmm true (request "14:30" "15:30") (store confirmed))
    = SlotUnavailable.
Proof.
  apply (overlap_is_rejected hhmm true (request "14:30" "15:30") (store confirmed)
           (slot confirmed)).
  - simpl. left. reflexivity.
  - reflexivity.
  - reflexivity.
  - right. reflexivity.
  - split; reflexivity.
Defined.

(** The document [bookConsultation] builds for a request. *)
Definition booked (req : BookRequest) (e : Expert) : ExpertConsultation :=
  {| user := req_user req; expert := expertId req; date := req_date req;
     startTime := req_startTime req; endTime := req_endTime req;
     notes := trim (req_notes req); amount := consultationFee e; status := scheduled |}.

(** The activity log entry of a consultation never passes the schema: its
    type "consultation" is outside the [type] enum. *)
Lemma logConsultationActivity_throws (c : ExpertConsultation) (action u : string)
    (db : Store) :
  logConsultationActivity c action u db = (Throw "CommunicationLog validation failed", db).
Proof. reflexivity. Qed.

Section Saving.

Variable clock : string -> option Z.
Variable app_io : bool.

(** Past the availability check the answer is what [save], then the
    activity log, make of the new document. *)
Lemma book_available (req : BookRequest) (db : Store) (e : Expert) :
  find (fun e => String.eqb (expert_id e) (expertId req)) (experts db) = Some e ->
  checkAvailable (consultations db) (expertId req) (req_date req)
    (req_startTime req) (req_endTime req) = true ->
  bookConsultation clock app_io req db =
    match save clock (booked req e) db with
    | (Return _, db') =>
        (Respond 500 (Failure "Failed to book consultation"
                        "CommunicationLog validation failed"), db')
    | (Throw err, db') => (Respond 500 (Failure "Failed to book consultation" err), db')
    end.
Proof.
  intros He Ha.
  unfold bookConsultation, tryCatch, mbind, Eff_bind, Expert_findById,
    checkExpertAvailability, reads.
  rewrite He, Ha. cbv beta iota delta [negb]. fold (booked req e).
  destruct (save clock (booked req e) db) as [[[]|err] db']; reflexivity.
Qed.

(** [save] writes only by appending the document, and only when it returns. *)
Lemma save_store (c : ExpertConsultation) (db : Store) :
  match save clock c db with
  | (Return _, db') => db' = with_consultations (fun cs => (cs ++ [c])%list) db
  | (Throw _, db') => db' = db
  end.
Proof.
  unfold save, preSave, mbind, Eff_bind, reads, throw, modify, mret, Eff_ret.
  destruct (validConsultation c); simpl; [|reflexivity].
  destruct (date_ge _ _); [reflexivity|].
  destruct (find _ (consultations db)); [reflexivity|].
  destruct (duplicateKey c (consultations db)); reflexivity.
Qed.

(** No request is ever answered 201: the handler throws after the save. *)
Lemma bookConsultation_never_201 (req : BookRequest) (db : Store) :
  code (fst (bookConsultation clock app_io req db)) <> 201.
Proof.
  destruct (find (fun e => String.eqb (expert_id e) (expertId req)) (experts db))
    as [e|] eqn:He.
  - destruct (checkAvailable (consultations db) (expertId req) (req_date req)
                (req_startTime req) (req_endTime req)) eqn:Ha.
    + rewrite (book_available req db e He Ha).
      destruct (save clock (booked req e) db) as [[[]|err] db']; simpl; discriminate.
    + rewrite (book_unavailable clock app_io req db e He Ha). simpl. discriminate.
  - rewrite (book_no_expert clock app_io req db He). simpl. discriminate.
Qed.

(** A stored window that ends where the request starts does not match the
    conflict filter. *)
Lemma adjacent_not_conflict (c : ExpertConsultation) (i : string) (d : Z) (f : string) :
  str_lt (startTime c) (endTime c) = true ->
  slotFilter i d (endTime c) f c = false.
Proof.
  intros Hw. unfold slotFilter, str_gt, str_gte.
  fold (str_lt (endTime c) (endTime c)). rewrite str_lt_irrefl.
  fold (str_lt (startTime c) (endTime c)). rewrite Hw.
  rewrite andb_false_r. simpl. now rewrite andb_false_r.
Qed.

(** Nor does a stored window that starts where the request ends. *)
Lemma adjacent_after_not_conflict (c : ExpertConsultation) (i : string) (d : Z) (s : string) :
  slotFilter i d s (startTime c) c = false.
Proof.
  unfold slotFilter. rewrite str_lt_irrefl. simpl.
  rewrite !andb_false_r. reflexivity.
Qed.

(** When the only consultations of the expert on the date are windows that
    end where the request starts, the slot is reported available. *)
Lemma adjacent_available (req : BookRequest) (db : Store) :
  (forall c, In c (consultations db) ->
     expert c = expertId req -> date c = req_date req ->
     str_lt (startTime c) (endTime c) = true /\ endTime c = req_startTime req) ->
  checkAvailable (consultations db) (expertId req) (req_date req)
    (req_startTime req) (req_endTime req) = true.
Proof.
  intros H. apply checkAvailable_free. intros c Hin.
  destruct (String.eqb (expert c) (expertId req)) eqn:He;
    [|unfold slotFilter; now rewrite He].
  destruct (date c =? req_date req) eqn:Hd;
    [|unfold slotFilter; now rewrite He, Hd].
  apply String.eqb_eq in He. apply Z.eqb_eq in Hd.
  destruct (H c Hin He Hd) as [Hw <-].
  now apply adjacent_not_conflict.
Qed.

End Saving.

(** C3, as stated, fails: an overlapping consultation whose status is
    completed, or no-show, does make [bookConsultation] reject the
    request.  For the stored 14:00-15:00 slot in either status, a request
    for 14:30-15:30 is answered slot-unavailable and nothing is stored. *)
Lemma terminal_status_still_blocks :
  bookConsultation hhmm true (request "14:30" "15:30") (store completed)
    = (SlotUnavailable, store completed)
  /\ bookConsultation hhmm true (request "14:30" "15:30") (store no_show)
    = (SlotUnavailable, store no_show).
Proof. split; reflexivity. Qed.

(** The second alternative of the filter: the stored window starts within
    the requested one. *)
Definition startsWithin (c : ExpertConsultation) (start finish : string) : Prop :=
  str_gte (startTime c) start = true /\ str_lt (startTime c) finish = true.

Lemma status_name_listed (st : Status) :
  negb (str_in (status_name st) ["cancelled"; "rejected"]) = true <-> st <> cancelled.
Proof. destruct st; simpl; split; intros H; try reflexivity; try discriminate; now elim H. Qed.

Lemma slotFilter_spec (c : ExpertConsultation) (i : string) (d : Z) (s f : string) :
  slotFilter i d s f c = true
  <-> expert c = i /\ date c = d /\ status c <> cancelled
      /\ (overlaps c s f \/ startsWithin c s f).
Proof.
  unfold slotFilter, overlaps, startsWithin.
  rewrite !andb_true_iff, orb_true_iff, !andb_true_iff, String.eqb_eq, Z.eqb_eq,
    status_name_listed.
  tauto.
Qed.

(** C3, amended.  Every consultation of the expert on the date that is
    not cancelled occupies its slot, a completed or no-show one as much as
    a scheduled or confirmed one: a request for an existing expert is
    answered slot-unavailable, with nothing stored, exactly when some
    stored consultation of the expert on the date whose status is not
    cancelled overlaps the requested window or starts within it. *)
Theorem uncancelled_consultation_blocks (clock : string -> option Z) (app_io : bool)
    (req : BookRequest) (db : Store) (e : Expert) :
  find (fun e => String.eqb (expert_id e) (expertId req)) (experts db) = Some e ->
  bookConsultation clock app_io req db = (SlotUnavailable, db)
  <-> exists c, In c (consultations db)
                /\ expert c = expertId req /\ date c = req_date req
                /\ status c <> cancelled
                /\ (overlaps c (req_startTime req) (req_endTime req)
                    \/ startsWithin c (req_startTime req) (req_endTime req)).
Proof.
  intros He. split.
  - intros Hb.
    destruct (checkAvailable (consultations db) (expertId req) (req_date req)
                (req_startTime req) (req_endTime req)) eqn:Ha.
    + rewrite (book_available clock app_io req db e He Ha) in Hb.
      destruct (save clock (booked req e) db) as [[[]|err] db']; discriminate.
    + unfold checkAvailable in Ha.
      destruct (find _ (consultations db)) as [c|] eqn:Hf; [|discriminate].
      apply find_some in Hf as [Hin Hc]. exists c. split; [exact Hin|].
      now apply slotFilter_spec.
  - intros (c & Hin & Hc).
    apply (book_unavailable clock app_io req db e He).
    apply (checkAvailable_blocked _ c); [exact Hin|]. now apply slotFilter_spec.
Qed.

Lemma uncancelled_consultation_blocks_witness :
  bookConsultation hhmm true (request "14:30" "15:30") (store no_show)
  = (SlotUnavailable, store no_show).
Proof.
  apply (proj2 (uncancelled_consultation_blocks hhmm true (request "14:30" "15:30")
                  (store no_show) expert1 eq_refl)).
  exists (slot no_show). split; [left; reflexivity|].
  split; [reflexivity|]. split; [reflexivity|]. split; [discriminate|].
  left. split; reflexivity.
Defined.

(** The schema's own slot check counts scheduled and confirmed
    consultations only: it lets a new document take the start time of a
    completed one. *)
Lemma preSave_ignores_completed :
  preSave hhmm (booked (request "14:00" "15:00") expert1) (store completed)
    = (Return tt, store completed)
  /\ preSave hhmm (booked (request "14:00" "15:00") expert1) (store confirmed)
    = (Throw "This time slot is already booked", store confirmed).
Proof. split; reflexivity. Qed.

(** C4. With a confirmed 14:00-15:00 slot stored, the request for
    15:00-16:00 is reported available and its consultation is stored, yet
    the answer is the 500 of the handler's [catch]: the activity log that
    follows the save throws. *)
Theorem adjacent_booking_answer :
  checkAvailable (consultations (store confirmed)) "e1" june1 "15:00" "16:00" = true
  /\ bookConsultation hhmm true (request "15:00" "16:00") (store confirmed)
     = (Respond 500 (Failure "Failed to book consultation"
                       "CommunicationLog validation failed"),
        with_consultations
          (fun cs => (cs ++ [booked (request "15:00" "16:00") expert1])%list)
          (store confirmed)).
Proof. split; reflexivity. Qed.

(** C5, as stated, fails: a zero-length request that overlaps a stored
    slot is answered by the conflict check, and one that overlaps nothing
    is answered 500 by the failed save, not as invalid input. *)
Lemma zero_length_meets_conflict_check :
  req_startTime (request "14:30" "14:30") = req_endTime (request "14:30" "14:30")
  /\ fst (bookConsultation hhmm true (request "14:30" "14:30") (store confirmed))
     = SlotUnavailable
  /\ fst (bookConsultation hhmm true (request "16:00" "16:00") (store confirmed))
     = Respond 500 (Failure "Failed to book consultation"
                      "End time must be after start time").
Proof. repeat split; reflexivity. Qed.

(** C5, amended. A zero-length request whose time is a valid time of day
    never creates a consultation: the store is left as it was.  The
    conflict check runs first and answers slot-unavailable when it finds
    a conflict; otherwise the save is refused, by the schema's pre-save
    hook when the document passes field validation, and the answer is the
    500 of the handler's [catch]. *)
Theorem zero_length_never_stored (clock : string -> option Z) (app_io : bool)
    (req : BookRequest) (db : Store) (t : Z) (e : Expert) :
  req_startTime req = req_endTime req ->
  clock (req_startTime req) = Some t ->
  find (fun e => String.eqb (expert_id e) (expertId req)) (experts db) = Some e ->
  snd (bookConsultation clock app_io req db) = db
  /\ if checkAvailable (consultations db) (expertId req) (req_date req)
          (req_startTime req) (req_endTime req)
     then fst (bookConsultation clock app_io req db)
          = Respond 500 (Failure "Failed to book consultation"
              (if validConsultation (booked req e)
               then "End time must be after start time"
               else "ExpertConsultation validation failed"))
     else fst (bookConsultation clock app_io req db) = SlotUnavailable.
Proof.
  intros Hz Ht He.
  destruct (checkAvailable _ _ _ _ _) eqn:Ha.
  - rewrite (book_available clock app_io req db e He Ha).
    unfold save, preSave, mbind, Eff_bind, throw.
    destruct (validConsultation (booked req e)); simpl; [|now split].
    rewrite <- Hz, Ht. simpl. rewrite Z.leb_refl. now split.
  - rewrite (book_unavailable clock app_io req db e He Ha). now split.
Qed.

(** The hook compares two [Date]s, so a zero-length window whose time is
    an Invalid Date passes it and is stored. *)
Lemma unparsable_zero_length_is_stored :
  hhmm "half past two" = None
  /\ consultations
       (snd (bookConsultation hhmm true (request "half past two" "half past two")
               (store confirmed)))
     = [slot confirmed; booked (request "half past two" "half past two") expert1].
Proof. split; reflexivity. Qed.

Lemma zero_length_never_stored_witness :
  snd (bookConsultation hhmm true (request "16:00" "16:00") (store confirmed))
    = store confirmed
  /\ fst (bookConsultation hhmm true (request "16:00" "16:00") (store confirmed))
    = Respond 500 (Failure "Failed to book consultation"
                     "End time must be after start time").
Proof.
  apply (zero_length_never_stored hhmm true (request "16:00" "16:00") (store confirmed)
           57600000 expert1); reflexivity.
Defined.

(** *** Times of day and their strings *)

Lemma digit_compare (c c' : ascii) (x y : Z) :
  digit c = Some x -> digit c' = Some y ->
  Ascii.compare c c' = (x ?= y) /\ 0 <= x <= 9 /\ 0 <= y <= 9.
Proof.
  unfold digit, Ascii.compare, nat_of_ascii. rewrite !N_nat_Z. intros Hx Hy.
  destruct ((48 <=? Z.of_N (N_of_ascii c)) && (Z.of_N (N_of_ascii c) <=? 57)) eqn:E;
    [|discriminate].
  destruct ((48 <=? Z.of_N (N_of_ascii c')) && (Z.of_N (N_of_ascii c') <=? 57)) eqn:E';
    [|discriminate].
  injection Hx as <-. injection Hy as <-.
  apply andb_true_iff in E as [E1 E2]. apply andb_true_iff in E' as [E3 E4].
  apply Z.leb_le in E1, E2, E3, E4.
  split; [|lia]. rewrite <- N2Z.inj_compare.
  destruct (Z.compare_spec (Z.of_N (N_of_ascii c)) (Z.of_N (N_of_ascii c')));
    destruct (Z.compare_spec (Z.of_N (N_of_ascii c) - 48) (Z.of_N (N_of_ascii c') - 48));
    try reflexivity; lia.
Qed.

Lemma hhmm_shape (t : string) (x : Z) :
  hhmm t = Some x ->
  exists h1 h2 m1 m2 a b c d,
    t = String h1 (String h2 (String ":" (String m1 (String m2 EmptyString))))
    /\ digit h1 = Some a /\ digit h2 = Some b /\ digit m1 = Some c /\ digit m2 = Some d
    /\ 10 * c + d < 60 /\ x = ((10 * a + b) * 60 + (10 * c + d)) * 60000.
Proof.
  destruct t as [|h1 [|h2 [|c3 [|m1 [|m2 [|]]]]]]; try discriminate;
    destruct c3 as [[] [] [] [] [] [] [] []]; try discriminate.
  unfold hhmm.
  destruct (digit h1) as [a|] eqn:Ha; [|discriminate].
  destruct (digit h2) as [b|] eqn:Hb; [|discriminate].
  destruct (digit m1) as [c|] eqn:Hc; [|discriminate].
  destruct (digit m2) as [d|] eqn:Hd; [|discriminate].
  cbv zeta.
  destruct (((10 * a + b <? 24) && (10 * c + d <? 60))
            || ((10 * a + b =? 24) && (10 * c + d =? 0))) eqn:E; [|discriminate].
  intros [= <-].
  assert (10 * c + d < 60).
  { apply orb_true_iff in E as [E|E]; apply andb_true_iff in E as [_ E].
    - now apply Z.ltb_lt in E.
    - apply Z.eqb_eq in E. lia. }
  exists h1, h2, m1, m2, a, b, c, d. repeat split; auto.
Qed.

Lemma hhmm_order (s t : string) (x y : Z) :
  hhmm s = Some x -> hhmm t = Some y -> str_lt s t = (x <? y).
Proof.
  intros Hs Ht.
  destruct (hhmm_shape s x Hs)
    as (h1 & h2 & m1 & m2 & a & b & c & d & -> & Ha & Hb & Hc & Hd & Hm & ->).
  destruct (hhmm_shape t y Ht)
    as (h1' & h2' & m1' & m2' & a' & b' & c' & d' & -> & Ha' & Hb' & Hc' & Hd' & Hm' & ->).
  destruct (digit_compare h1 h1' a a' Ha Ha') as (E1 & ? & ?).
  destruct (digit_compare h2 h2' b b' Hb Hb') as (E2 & ? & ?).
  destruct (digit_compare m1 m1' c c' Hc Hc') as (E3 & ? & ?).
  destruct (digit_compare m2 m2' d d' Hd Hd') as (E4 & ? & ?).
  unfold str_lt, String.ltb. cbn [String.compare].
  rewrite E1, E2, E3, E4.
  change (Ascii.compare ":" ":") with Eq. cbv iota.
  destruct (Z.compare_spec a a'); [|symmetry; apply Z.ltb_lt; lia|symmetry; apply Z.ltb_ge; lia].
  destruct (Z.compare_spec b b'); [|symmetry; apply Z.ltb_lt; lia|symmetry; apply Z.ltb_ge; lia].
  destruct (Z.compare_spec c c'); [|symmetry; apply Z.ltb_lt; lia|symmetry; apply Z.ltb_ge; lia].
  destruct (Z.compare_spec d d'); [|symmetry; apply Z.ltb_lt; lia|symmetry; apply Z.ltb_ge; lia].
  symmetry; apply Z.ltb_ge; lia.
Qed.

(** On well-formed times the overlap the store computes on strings is the
    half-open overlap of the windows in time. *)
Lemma overlaps_in_time (c : ExpertConsultation) (s f : string) (a b x y : Z) :
  hhmm (startTime c) = Some a -> hhmm (endTime c) = Some b ->
  hhmm s = Some x -> hhmm f = Some y ->
  overlaps c s f <-> a < y /\ x < b.
Proof.
  intros Ha Hb Hx Hy. unfold overlaps, str_gt. fold (str_lt s (endTime c)).
  rewrite (hhmm_order _ _ _ _ Ha Hy), (hhmm_order _ _ _ _ Hx Hb), !Z.ltb_lt.
  reflexivity.
Qed.

End ConsultationProofs.

(** ** Visit bookings and the owner's answer *)

Module BookingProofs.

Import Bookings.

(** A property of owner "o1" with one pending visit of tenant "tA" on
    2024-06-01 in the slot "10:00-11:00". *)
Definition june1 : Z := 1717200000000.

Definition calendar (s : string) : option Z :=
  if String.eqb s "2024-06-01" then Some june1 else None.

Definition visitA : Booking :=
  {| booking_id := "b1"; user := "tA"; property := "p1"; owner := "o1";
     bookingType := "visit"; status := "pending"; visitDate := Some june1;
     visitTimeSlot := "10:00-11:00"; notes := "" |}.

Definition store : Store :=
  {| properties := [{| property_id := "p1"; property_owner := "o1" |}];
     bookings := [visitA]; notifications := [] |}.

Definition visitRequest (tenant : string) : VisitRequest :=
  {| visit_errors := []; visit_user := tenant; visit_property := "p1";
     visit_visitDate := "2024-06-01"; visit_visitTimeSlot := "10:00-11:00";
     visit_notes := "" |}.

Definition respondRequest (answer : string) : RespondRequest :=
  {| respond_user := "o1"; respond_id := "b1"; respond_status := answer;
     respond_message := "" |}.

(** The document [scheduleVisit] builds for a request. *)
Definition requested (newDate : string -> option Z) (newId : string)
    (req : VisitRequest) (p : Property) : Booking :=
  {| booking_id := newId; user := visit_user req; property := visit_property req;
     owner := property_owner p; bookingType := "visit"; status := "pending";
     visitDate := newDate (visit_visitDate req);
     visitTimeSlot := visit_visitTimeSlot req; notes := visit_notes req |}.



Section VisitRoute.

Variable newDate : string -> option Z.
Variable newId : string.




End VisitRoute.



(** *** The owner's answer *)

Lemma find_replaced (i : string) (b b' : Booking) (bs : list Booking) :
  booking_id b' = i ->
  find (fun x => String.eqb (booking_id x) i) bs = Some b ->
  find (fun x => String.eqb (booking_id x) i)
    (map (fun x => if String.eqb (booking_id x) (booking_id b') then b' else x) bs)
  = Some b'.
Proof.
  intros <-. induction bs as [|x bs IH]; simpl; [discriminate|].
  destruct (String.eqb (booking_id x) (booking_id b')) eqn:E.
  - intros _. simpl. now rewrite String.eqb_refl.
  - intros H. simpl. rewrite E. now apply IH.
Qed.

Lemma validBooking_confirmed (b : Booking) :
  validBooking b = true -> validBooking (set_status "confirmed" b) = true.
Proof.
  unfold validBooking. simpl.
  rewrite !andb_true_iff. intuition.
Qed.

Lemma validBooking_rejected (b : Booking) :
  validBooking (set_status "rejected" b) = false.
Proof.
  unfold validBooking. simpl. now rewrite andb_false_r.
Qed.

(** Past validation and the ownership check the answer is always the 500
    of the handler's [catch]. *)
Lemma respond_past_checks (req : RespondRequest) (db : Store) (b : Booking) (p : Property) :
  str_in (respond_status req) ["confirmed"; "rejected"] = true ->
  find (fun b => String.eqb (booking_id b) (respond_id req)) (bookings db) = Some b ->
  find (fun q => String.eqb (property_id q) (property b)) (properties db) = Some p ->
  property_owner p = respond_user req ->
  respondToBooking req db =
    (ServerError,
     if validBooking (set_status (respond_status req) b)
     then with_bookings
            (map (fun x => if String.eqb (booking_id x) (booking_id b)
                           then set_status (respond_status req) b else x)) db
     else db).
Proof.
  intros Hv Hb Hp Ho.
  unfold respondToBooking, tryCatch, mbind, Eff_bind, Booking_findById,
    Property_findById, reads, respond_errors.
  rewrite Hv, Hb, Hp, Ho, String.eqb_refl. cbv beta iota delta [negb].
  unfold Booking_update.
  destruct (validBooking (set_status (respond_status req) b)); reflexivity.
Qed.

(** C10, amended. Every accept or reject request that passes validation
    and the ownership check is answered 500, [Notification] being unbound
    in the module; for an accept of a stored booking the new status
    "confirmed" is saved before that and stays in the store. *)
Theorem respond_answers_500 (req : RespondRequest) (db : Store) (b : Booking) (p : Property) :
  str_in (respond_status req) ["confirmed"; "rejected"] = true ->
  find (fun b => String.eqb (booking_id b) (respond_id req)) (bookings db) = Some b ->
  find (fun q => String.eqb (property_id q) (property b)) (properties db) = Some p ->
  property_owner p = respond_user req ->
  validBooking b = true ->
  fst (respondToBooking req db) = ServerError
  /\ notifications (snd (respondToBooking req db)) = notifications db
  /\ (respond_status req = "confirmed" ->
      find (fun b => String.eqb (booking_id b) (respond_id req))
        (bookings (snd (respondToBooking req db)))
      = Some (set_status "confirmed" b)).
Proof.
  intros Hv Hb Hp Ho Hvalid.
  rewrite (respond_past_checks req db b p Hv Hb Hp Ho).
  split; [reflexivity|]. split.
  - destruct (validBooking (set_status (respond_status req) b)); reflexivity.
  - intros Hs. rewrite Hs. rewrite (validBooking_confirmed b Hvalid). simpl.
    apply find_some in Hb as Hid. destruct Hid as [_ Hid]. apply String.eqb_eq in Hid.
    apply (find_replaced (respond_id req) b (set_status "confirmed" b)); assumption.
Qed.

Lemma respond_answers_500_witness :
  fst (respondToBooking (respondRequest "confirmed") store) = ServerError
  /\ notifications (snd (respondToBooking (respondRequest "confirmed") store))
     = notifications store
  /\ (respond_status (respondRequest "confirmed") = "confirmed" ->
      find (fun b => String.eqb (booking_id b) (respond_id (respondRequest "confirmed")))
        (bookings (snd (respondToBooking (respondRequest "confirmed") store)))
      = Some (set_status "confirmed" visitA)).
Proof.
  apply (respond_answers_500 (respondRequest "confirmed") store visitA
           {| property_id := "p1"; property_owner := "o1" |}); reflexivity.
Defined.

(** C10, as stated, fails for a reject: the schema's [status] enum has no
    "rejected", so the save itself throws; the answer is 500 and the
    stored booking keeps its status "pending". *)
Lemma reject_is_not_saved :
  respond_errors (respondRequest "rejected") = []
  /\ fst (respondToBooking (respondRequest "rejected") store) = ServerError
  /\ snd (respondToBooking (respondRequest "rejected") store) = store
  /\ option_map status
       (find (fun b => String.eqb (booking_id b) "b1")
          (bookings (snd (respondToBooking (respondRequest "rejected") store))))
     = Some "pending".
Proof. repeat split; reflexivity. Qed.

(** A reject never changes the store. *)
Lemma reject_leaves_store (req : RespondRequest) (db : Store) :
  respond_status req = "rejected" -> snd (respondToBooking req db) = db.
Proof.
  intros Hs.
  unfold respondToBooking, tryCatch, mbind, Eff_bind, Booking_findById,
    Property_findById, reads, respond_errors.
  rewrite Hs. change (str_in "rejected" ["confirmed"; "rejected"]) with true.
  cbv beta iota.
  destruct (find (fun b => String.eqb (booking_id b) (respond_id req)) (bookings db))
    as [b|]; [|reflexivity].
  destruct (find (fun q => String.eqb (property_id q) (property b)) (properties db))
    as [p|]; [|reflexivity].
  destruct (negb (String.eqb (property_owner p) (respond_user req))); [reflexivity|].
  unfold Booking_update. rewrite validBooking_rejected. reflexivity.
Qed.

End BookingProofs.

(** ** View de-duplication *)

Module ViewProofs.

Import Views.

(** The cast of the examples: an ObjectId is written as 24 hexadecimal
    digits. *)
Definition hexDigit (c : ascii) : bool :=
  let n := Z.of_nat (nat_of_ascii c) in
  ((48 <=? n) && (n <=? 57)) || ((97 <=? n) && (n <=? 102)) || ((65 <=? n) && (n <=? 70)).

Definition hex24 (s : string) : bool :=
  (String.length s =? 24)%nat && forallb hexDigit (list_ascii_of_string s).

(** Whether a fetch counts as a new view of the property it reads. *)
Definition counted (now : Z) (req : DetailRequest) (p : Property) : bool :=
  match userId req with
  | Some u => negb (String.eqb (owner p) u) && negb (existsb (viewedByUser u) (viewedBy p))
  | None => negb (existsb (viewedFromIP now (userIP req)) (viewedBy p))
  end.

(** The view record a fetch writes. *)
Definition recordOf (stamp : Z) (req : DetailRequest) : View :=
  {| view_user := userId req; viewedAt := stamp; ipAddress := userIP req |}.

(** A fetch with the two readings of the clock it makes. *)
Definition Fetch : Type := (Z * Z * DetailRequest)%type.

(** Fetches served one after the other. *)
Definition run (oid : string -> bool) (fs : list Fetch) (db : Store) : Store :=
  fold_left (fun db '(now, stamp, req) => snd (getProperty oid now stamp req db)) fs db.

(** The user has a view record on the property. *)
Definition seen (u i : string) (db : Store) : Prop :=
  exists p, properties db !! i = Some p /\ existsb (viewedByUser u) (viewedBy p) = true.

(** The only write of a fetch is the push of its view record, made
    exactly when the fetch counts. *)
Lemma getProperty_store (oid : string -> bool) (now stamp : Z) (req : DetailRequest)
    (db : Store) :
  snd (getProperty oid now stamp req db) =
    match properties db !! id req with
    | Some p =>
        if counted now req p
        then {| properties := alter (pushView (recordOf stamp req)) (id req) (properties db);
                reviews := reviews db |}
        else db
    | None => db
    end.
Proof.
  unfold getProperty, tryCatch, mbind, Eff_bind, Property_findById, reads, trackView,
    counted, recordOf.
  destruct (properties db !! id req) as [p|]; [|destruct (oid (id req)); reflexivity].
  destruct (userId req) as [u|].
  - destruct (negb (String.eqb (owner p) u)); [|reflexivity].
    destruct (negb (existsb (viewedByUser u) (viewedBy p))); reflexivity.
  - destruct (negb (existsb (viewedFromIP now (userIP req)) (viewedBy p))); reflexivity.
Qed.


Lemma counted_store (oid : string -> bool) (now stamp : Z) (req : DetailRequest)
    (db : Store) (p : Property) :
  properties db !! id req = Some p ->
  counted now req p = true ->
  views (snd (getProperty oid now stamp req db)) (id req) = views db (id req) + 1
  /\ viewRecords (snd (getProperty oid now stamp req db)) (id req)
     = (viewRecords db (id req) ++ [recordOf stamp req])%list.
Proof.
  intros Hp Hc. rewrite getProperty_store, Hp, Hc.
  unfold views, viewRecords. simpl. rewrite lookup_alter_eq, Hp. simpl. now split.
Qed.

Lemma not_counted_store (oid : string -> bool) (now stamp : Z) (req : DetailRequest)
    (db : Store) (p : Property) :
  properties db !! id req = Some p ->
  counted now req p = false ->
  snd (getProperty oid now stamp req db) = db.
Proof. intros Hp Hc. now rewrite getProperty_store, Hp, Hc. Qed.

(** View records are only ever added. *)
Lemma seen_preserved (oid : string -> bool) (u i : string) (now stamp : Z)
    (req : DetailRequest) (db : Store) :
  seen u i db -> seen u i (snd (getProperty oid now stamp req db)).
Proof.
  intros (p & Hp & Hv). rewrite getProperty_store.
  destruct (properties db !! id req) as [q|] eqn:Hq; [|now exists p].
  destruct (counted now req q); [|now exists p].
  destruct (decide (id req = i)) as [->|Hne].
  - exists (pushView (recordOf stamp req) p). simpl.
    rewrite lookup_alter_eq, Hp. split; [reflexivity|].
    simpl. rewrite existsb_app, Hv. reflexivity.
  - exists p. simpl. rewrite lookup_alter_ne by exact Hne. now split.
Qed.

Lemma seen_run (oid : string -> bool) (u i : string) (fs : list Fetch) (db : Store) :
  seen u i db -> seen u i (run oid fs db).
Proof.
  revert db. induction fs as [|[[now stamp] req] fs IH]; intros db H; [exact H|].
  simpl. apply IH. now apply seen_preserved.
Qed.

(** A user with a view record on the property is never counted again. *)
Lemma seen_not_counted (oid : string -> bool) (u i ip : string) (now stamp : Z)
    (db : Store) :
  seen u i db ->
  snd (getProperty oid now stamp {| id := i; userId := Some u; userIP := ip |} db) = db.
Proof.
  intros (p & Hp & Hv).
  apply (not_counted_store oid now stamp {| id := i; userId := Some u; userIP := ip |} db p Hp).
  unfold counted. simpl. rewrite Hv. now rewrite andb_false_r.
Qed.

(** What the handler does for a viewer it identifies, that is, when
    [req.user._id] is the id [u] of a user who is not the owner and has
    no view record on the property yet: the first fetch appends one view
    record and adds one to the counter; a second fetch right after it
    leaves the counter at that value; and after any further fetches, by
    anyone, of any property, a fetch by [u] of this property changes
    nothing in the store. *)
Lemma identified_viewer_counted_once (oid : string -> bool) (now1 stamp1 now2 stamp2 : Z)
    (between : list Fetch) (db : Store) (i u ip1 ip2 : string) (p : Property) :
  properties db !! i = Some p ->
  owner p <> u ->
  existsb (viewedByUser u) (viewedBy p) = false ->
  let first := {| id := i; userId := Some u; userIP := ip1 |} in
  let again := {| id := i; userId := Some u; userIP := ip2 |} in
  let db1 := snd (getProperty oid now1 stamp1 first db) in
  views db1 i = views db i + 1
  /\ viewRecords db1 i
     = (viewRecords db i
        ++ [{| view_user := Some u; viewedAt := stamp1; ipAddress := ip1 |}])%list
  /\ views (snd (getProperty oid now2 stamp2 again db1)) i = views db i + 1
  /\ snd (getProperty oid now2 stamp2 again (run oid between db1)) = run oid between db1.
Proof.
  intros Hp Ho Hv first again db1.
  assert (Hc : counted now1 first p = true).
  { unfold counted, first. simpl. rewrite Hv.
    destruct (String.eqb (owner p) u) eqn:E; [|reflexivity].
    apply String.eqb_eq in E. contradiction. }
  destruct (counted_store oid now1 stamp1 first db p Hp Hc) as [H1 H2].
  assert (Hs : seen u i db1).
  { unfold db1. rewrite getProperty_store. change (id first) with i. rewrite Hp, Hc.
    exists (pushView (recordOf stamp1 first) p). simpl.
    rewrite lookup_alter_eq, Hp. split; [reflexivity|].
    simpl. rewrite existsb_app. simpl. unfold viewedByUser at 2. simpl.
    rewrite String.eqb_refl. now rewrite orb_true_r. }
  split; [exact H1|]. split; [exact H2|]. split.
  - unfold again. rewrite (seen_not_counted oid u i ip2 now2 stamp2 db1 Hs). exact H1.
  - apply seen_not_counted. now apply seen_run.
Qed.

(** *** The viewer the route identifies *)

(** The payload of a token of the repository names the user under
    [userId], the field that [auth] and the socket handshake read from
    it, and has no field [_id]. *)
Definition payloadOf (u role : string) : Claims :=
  {[ "userId" := u; "role" := role ]}.

Lemma payloadOf_fields (u role : string) :
  payloadOf u role !! "userId" = Some u /\ payloadOf u role !! "_id" = None.
Proof.
  unfold payloadOf, Claims. split.
  - apply lookup_insert_eq.
  - rewrite lookup_insert_ne by discriminate. apply lookup_singleton_ne. discriminate.
Qed.

(** A payload without [_id] identifies nobody to the handler. *)
Lemma user_id_without_id (c : Claims) : c !! "_id" = None -> user_id (Some c) = None.
Proof. intros H. unfold user_id. now rewrite H. Qed.

(** With such a token, as with none, the request is handled as an
    anonymous one. *)
Lemma route_takes_token_for_anonymous (verify : string -> option Claims)
    (oid : string -> bool) (now stamp : Z) (r : HttpRequest) (db : Store) :
  (forall t c, authorization r = Some t -> verify t = Some c -> c !! "_id" = None) ->
  getPropertyRoute verify oid now stamp r db
  = getProperty oid now stamp
      {| id := params_id r; userId := None; userIP := remoteAddress r |} db.
Proof.
  intros H. unfold getPropertyRoute.
  assert (user_id (optionalAuth verify r) = None) as ->; [|reflexivity].
  unfold optionalAuth. destruct (authorization r) as [t|] eqn:Ht; [|reflexivity].
  destruct (String.eqb t ""); [reflexivity|].
  destruct (verify t) as [c|] eqn:Hc; [|reflexivity].
  apply user_id_without_id. now apply (H t c).
Qed.

Lemma existsb_none {A} (f : A -> bool) (l : list A) :
  (forall x, In x l -> f x = false) -> existsb f l = false.
Proof.
  intros H. apply not_true_is_false. intros E.
  apply existsb_exists in E as (x & Hin & Hx). rewrite (H x Hin) in Hx. discriminate.
Qed.

(** C8. A signed-in viewer is not told from an anonymous one.  For a
    token that verifies to a payload naming the user [u] under [userId],
    without [_id], [req.user._id] is undefined and the fetch is handled
    exactly as the anonymous fetch from the same address.  So when [u],
    who is not the owner, fetches a property from two addresses that no
    view record of it carries, both fetches count: the counter grows by
    two and two view records without a user are appended. *)
Theorem authenticated_view_counted_per_address (verify : string -> option Claims)
    (oid : string -> bool) (now1 stamp1 now2 stamp2 : Z) (db : Store)
    (i u token ip1 ip2 : string) (claims : Claims) (p : Property) :
  verify token = Some claims ->
  claims !! "userId" = Some u ->
  claims !! "_id" = None ->
  properties db !! i = Some p ->
  owner p <> u ->
  ip1 <> ip2 ->
  (forall v, In v (viewedBy p) -> ipAddress v <> ip1 /\ ipAddress v <> ip2) ->
  let first := {| params_id := i; authorization := Some token; remoteAddress := ip1 |} in
  let again := {| params_id := i; authorization := Some token; remoteAddress := ip2 |} in
  let db1 := snd (getPropertyRoute verify oid now1 stamp1 first db) in
  let db2 := snd (getPropertyRoute verify oid now2 stamp2 again db1) in
  (forall now stamp db0,
     getPropertyRoute verify oid now stamp first db0
     = getProperty oid now stamp {| id := i; userId := None; userIP := ip1 |} db0)
  /\ views db1 i = views db i + 1
  /\ views db2 i = views db i + 2
  /\ viewRecords db2 i
     = (viewRecords db i
        ++ [{| view_user := None; viewedAt := stamp1; ipAddress := ip1 |};
            {| view_user := None; viewedAt := stamp2; ipAddress := ip2 |}])%list.
Proof.
  intros Hv _ Hid Hp _ Hip Hfresh first again db1 db2.
  assert (Ha : forall r, authorization r = Some token ->
                 forall t c, authorization r = Some t -> verify t = Some c ->
                   c !! "_id" = None).
  { intros r Hr t c Ht Hc. rewrite Hr in Ht. injection Ht as <-.
    rewrite Hv in Hc. now injection Hc as <-. }
  assert (H1 : forall now stamp db0,
             getPropertyRoute verify oid now stamp first db0
             = getProperty oid now stamp {| id := i; userId := None; userIP := ip1 |} db0).
  { intros now stamp db0. apply route_takes_token_for_anonymous. now apply Ha. }
  split; [exact H1|].
  set (r1 := {| id := i; userId := None; userIP := ip1 |}) in *.
  set (r2 := {| id := i; userId := None; userIP := ip2 |}).
  assert (Hc1 : counted now1 r1 p = true).
  { unfold counted. simpl. rewrite existsb_none; [reflexivity|].
    intros v Hin. unfold viewedFromIP.
    destruct (String.eqb (ipAddress v) ip1) eqn:E; [|reflexivity].
    apply String.eqb_eq in E. now destruct (Hfresh v Hin). }
  destruct (counted_store oid now1 stamp1 r1 db p Hp Hc1) as [V1 R1].
  assert (Hdb1 : db1 = snd (getProperty oid now1 stamp1 r1 db)).
  { unfold db1. now rewrite H1. }
  assert (Hp1 : properties db1 !! i = Some (pushView (recordOf stamp1 r1) p)).
  { rewrite Hdb1, getProperty_store. change (id r1) with i. rewrite Hp, Hc1. simpl.
    now rewrite lookup_alter_eq, Hp. }
  assert (Hc2 : counted now2 r2 (pushView (recordOf stamp1 r1) p) = true).
  { unfold counted. simpl. rewrite existsb_app. simpl.
    unfold viewedFromIP at 2. simpl.
    assert (String.eqb ip1 ip2 = false) as -> by (apply String.eqb_neq; exact Hip).
    simpl. rewrite orb_false_r. rewrite existsb_none; [reflexivity|].
    intros v Hin. unfold viewedFromIP.
    destruct (String.eqb (ipAddress v) ip2) eqn:E; [|reflexivity].
    apply String.eqb_eq in E. now destruct (Hfresh v Hin). }
  assert (Hdb2 : db2 = snd (getProperty oid now2 stamp2 r2 db1)).
  { unfold db2. rewrite route_takes_token_for_anonymous; [reflexivity|]. now apply Ha. }
  destruct (counted_store oid now2 stamp2 r2 db1 _ Hp1 Hc2) as [V2 R2].
  change (id r1) with i in V1, R1. change (id r2) with i in V2, R2.
  rewrite <- Hdb1 in V1, R1. rewrite <- Hdb2 in V2, R2.
  split; [exact V1|]. split; [lia|].
  rewrite R2, R1, <- app_assoc. reflexivity.
Qed.

(** The ids of the examples. *)
Definition p1 : string := "64a1f0c2b7e4d9a3c5f6e7a1".
Definition p2 : string := "64a1f0c2b7e4d9a3c5f6e7a2".
Definition o1 : string := "64a1f0c2b7e4d9a3c5f6e7b1".
Definition o2 : string := "64a1f0c2b7e4d9a3c5f6e7b2".
Definition u1 : string := "64a1f0c2b7e4d9a3c5f6e7c1".
Definition u2 : string := "64a1f0c2b7e4d9a3c5f6e7c2".

(** A property of owner [o1] never viewed, and the same property with
    one anonymous view from 10.0.0.7 recorded at time 1000. *)
Definition fresh : Store :=
  {| properties :=
       {[ p1 := {| owner := o1; isActive := true; isVisible := true; viewedBy := [];
                   analytics_views := 0; analytics_bookings := 0 |} ]};
     reviews := [] |}.

Definition anonymous (ip : string) : DetailRequest :=
  {| id := p1; userId := None; userIP := ip |}.

(** A key under which only the token of [u1] verifies. *)
Definition verifyU1 (token : string) : option Claims :=
  if String.eqb token "token-of-u1" then Some (payloadOf u1 "tenant") else None.

Lemma authenticated_view_counted_per_address_witness :
  views
    (snd (getPropertyRoute verifyU1 hex24 2000 2001
            {| params_id := p1; authorization := Some "token-of-u1";
               remoteAddress := "10.0.0.9" |}
            (snd (getPropertyRoute verifyU1 hex24 1000 1001
                    {| params_id := p1; authorization := Some "token-of-u1";
                       remoteAddress := "10.0.0.7" |} fresh)))) p1
  = views fresh p1 + 2.
Proof.
  apply (authenticated_view_counted_per_address verifyU1 hex24 1000 1001 2000 2001 fresh
           p1 u1 "token-of-u1" "10.0.0.7" "10.0.0.9" (payloadOf u1 "tenant")
           {| owner := o1; isActive := true; isVisible := true; viewedBy := [];
              analytics_views := 0; analytics_bookings := 0 |}).
  - reflexivity.
  - apply payloadOf_fields.
  - apply payloadOf_fields.
  - reflexivity.
  - discriminate.
  - discriminate.
  - intros v [].
Defined.

(** C9. For an anonymous fetch from address [ip] at time [now]: when some
    view record of the property carries [ip] and is less than 24 hours
    old, the store is left unchanged; when every record carrying [ip] is
    24 hours old or older, one view record is appended and the counter
    grows by one. *)
Theorem anonymous_view_window (oid : string -> bool) (now stamp : Z) (db : Store)
    (i ip : string) (p : Property) :
  properties db !! i = Some p ->
  let req := {| id := i; userId := None; userIP := ip |} in
  ((exists v, In v (viewedBy p) /\ ipAddress v = ip /\ now - viewedAt v < day) ->
   snd (getProperty oid now stamp req db) = db)
  /\ ((forall v, In v (viewedBy p) -> ipAddress v = ip -> day <= now - viewedAt v) ->
      views (snd (getProperty oid now stamp req db)) i = views db i + 1
      /\ viewRecords (snd (getProperty oid now stamp req db)) i
         = (viewRecords db i
            ++ [{| view_user := None; viewedAt := stamp; ipAddress := ip |}])%list).
Proof.
  intros Hp req. split.
  - intros (v & Hin & Hip & Ht).
    apply (not_counted_store oid now stamp req db p Hp).
    unfold counted, req. simpl.
    assert (existsb (viewedFromIP now ip) (viewedBy p) = true) as ->; [|reflexivity].
    apply existsb_exists. exists v. split; [exact Hin|].
    unfold viewedFromIP. rewrite Hip, String.eqb_refl. simpl. now apply Z.ltb_lt.
  - intros Hall.
    apply (counted_store oid now stamp req db p Hp).
    unfold counted, req. simpl.
    assert (existsb (viewedFromIP now ip) (viewedBy p) = false) as ->; [|reflexivity].
    apply not_true_is_false. intros H.
    apply existsb_exists in H as (v & Hin & Hv).
    unfold viewedFromIP in Hv. apply andb_true_iff in Hv as [Hip Ht].
    apply String.eqb_eq in Hip. apply Z.ltb_lt in Ht.
    specialize (Hall v Hin Hip). lia.
Qed.

(** An anonymous fetch from an address whose records are all 24 hours old
    or older is counted. *)
Lemma fresh_address_counted (oid : string -> bool) (now stamp : Z) (db : Store)
    (i ip : string) (p : Property) :
  properties db !! i = Some p ->
  (forall v, In v (viewedBy p) -> ipAddress v = ip -> day <= now - viewedAt v) ->
  let req := {| id := i; userId := None; userIP := ip |} in
  views (snd (getProperty oid now stamp req db)) i = views db i + 1
  /\ viewRecords (snd (getProperty oid now stamp req db)) i
     = (viewRecords db i
        ++ [{| view_user := None; viewedAt := stamp; ipAddress := ip |}])%list.
Proof.
  intros Hp Hall req.
  apply (counted_store oid now stamp req db p Hp).
  unfold counted, req. simpl.
  rewrite existsb_none; [reflexivity|].
  intros v Hin. unfold viewedFromIP.
  destruct (String.eqb (ipAddress v) ip) eqn:E; [|reflexivity].
  apply String.eqb_eq in E. simpl. apply Z.ltb_ge. now apply Hall.
Qed.

(** The store after one anonymous view from 10.0.0.7 written at time 1000. *)
Definition viewedOnce : Store :=
  snd (getProperty hex24 1000 1000 (anonymous "10.0.0.7") fresh).

Lemma anonymous_view_window_witness :
  snd (getProperty hex24 3601000 3601000 (anonymous "10.0.0.7") viewedOnce) = viewedOnce
  /\ views (snd (getProperty hex24 (1000 + day) (1000 + day) (anonymous "10.0.0.7")
                   viewedOnce)) p1
     = views viewedOnce p1 + 1.
Proof.
  split.
  - apply (anonymous_view_window hex24 3601000 3601000 viewedOnce p1 "10.0.0.7"
             {| owner := o1; isActive := true; isVisible := true;
                viewedBy := [{| view_user := None; viewedAt := 1000;
                                ipAddress := "10.0.0.7" |}];
                analytics_views := 1; analytics_bookings := 0 |});
      [reflexivity|].
    exists {| view_user := None; viewedAt := 1000; ipAddress := "10.0.0.7" |}.
    split; [left; reflexivity|]. split; [reflexivity|]. reflexivity.
  - apply (anonymous_view_window hex24 (1000 + day) (1000 + day) viewedOnce p1 "10.0.0.7"
             {| owner := o1; isActive := true; isVisible := true;
                viewedBy := [{| view_user := None; viewedAt := 1000;
                                ipAddress := "10.0.0.7" |}];
                analytics_views := 1; analytics_bookings := 0 |});
      [reflexivity|].
    intros v [<-|[]] _. simpl. discriminate.
Defined.

(** Three anonymous fetches from one address: the first counts, the one an
    hour later does not, the one exactly 24 hours after the first does. *)
Lemma anonymous_day_scenario :
  views viewedOnce p1 = 1
  /\ views (snd (getProperty hex24 (1000 + 3600000) (1000 + 3600000) (anonymous "10.0.0.7")
                   viewedOnce)) p1 = 1
  /\ views (snd (getProperty hex24 (1000 + day) (1000 + day) (anonymous "10.0.0.7")
                   viewedOnce)) p1 = 2.
Proof. repeat split; vm_compute; reflexivity. Qed.

End ViewProofs.

(** ** Analytics *)

Module AnalyticsProofs.

Import JsNumber Analytics.

(** Rounding to the nearest integer, the larger of two: the quotient
    [(2a + q) / 2q] is within one half of [a / q]. *)
Lemma half_up_nearest (a q : Z) :
  0 < q -> 2 * Z.abs ((2 * a + q) / (2 * q) * q - a) <= q.
Proof.
  intros Hq.
  pose proof (Z.div_mod (2 * a + q) (2 * q) ltac:(lia)) as Hd.
  pose proof (Z.mod_pos_bound (2 * a + q) (2 * q) ltac:(lia)) as Hm.
  set (k := (2 * a + q) / (2 * q)) in *.
  set (r := (2 * a + q) mod (2 * q)) in *.
  assert (2 * (k * q - a) = q - r) by lia.
  lia.
Qed.

(** The digits [toFixed] prints are those of a nearest decimal. *)
Lemma nearest_rounds (f : nat) (m : positive) (e : Z) :
  roundedTo f (fraction (Z.pos m) e) (nearest f m e).
Proof.
  unfold roundedTo, fraction, nearest.
  destruct (0 <=? e) eqn:He.
  - replace (Z.pos m * 2 ^ e * 10 ^ Z.of_nat f * 1 - Z.pos m * 2 ^ e * 10 ^ Z.of_nat f)
      with 0 by ring.
    simpl. lia.
  - apply Z.leb_gt in He.
    assert (Hq : 0 < 2 ^ (- e)) by (apply Z.pow_pos_nonneg; lia).
    replace (2 ^ (1 - e)) with (2 * 2 ^ (- e))
      by (replace (1 - e) with (Z.succ (- e)) by lia; rewrite Z.pow_succ_r; lia).
    replace (2 * Z.pos m * 10 ^ Z.of_nat f + 2 ^ (- e))
      with (2 * (Z.pos m * 10 ^ Z.of_nat f) + 2 ^ (- e)) by lia.
    apply half_up_nearest. exact Hq.
Qed.

Lemma toFixed_finite (f : nat) (x : float) (s : bool) (m : positive) (e : Z) :
  Prim2SF x = S754_finite s m e ->
  inRange x = true ->
  toFixed f x = Fixed s (nearest f m e) f.
Proof. intros Hx Hr. unfold toFixed. now rewrite Hx, Hr. Qed.

Lemma toFixed_zero (f : nat) (x : float) (s : bool) :
  Prim2SF x = S754_zero s -> toFixed f x = Fixed false 0 f.
Proof. intros Hx. unfold toFixed. now rewrite Hx. Qed.

Lemma count_zero {A} (l : list A) : count l = 0 -> l = [].
Proof. destruct l; [reflexivity|]. unfold count. simpl. lia. Qed.

Lemma count_pos {A} (l : list A) : l <> [] -> (0 <? count l) = true.
Proof. destruct l; [congruence|]. intros _. apply Z.ltb_lt. unfold count. simpl. lia. Qed.

(** The sum of a list of counts. *)
Definition total (l : list Z) : Z := fold_right Z.add 0 l.

(** The views of a portfolio, as [reduce] adds them up. *)
Lemma fold_views (ps : list Property) (z : Z) :
  fold_left (fun sum p => sum + viewedBy_length p) ps z
  = z + total (map viewedBy_length ps).
Proof.
  revert z. induction ps as [|p ps IH]; intros z; simpl; [lia|].
  rewrite IH. lia.
Qed.

(** The owner's active and visible properties, and what the queries of
    [ownerAnalytics] return for them. *)
Definition portfolio (o : string) (db : Store) : list Property :=
  List.filter (fun p => String.eqb (property_owner p) o && isActive p && isVisible p)
    (properties db).

Definition inPortfolio {A} (key : A -> string) (o : string) (db : Store) (l : list A)
    : list A :=
  List.filter (fun x => existsb (fun p => String.eqb (key x) (property_id p)) (portfolio o db)) l.

(** *** Doubles and decimals on small counts *)

(** Two doubles are the same Number, bit for bit. *)
Definition same (x y : float) : bool :=
  match Prim2SF x, Prim2SF y with
  | S754_zero s, S754_zero s' => Bool.eqb s s'
  | S754_infinity s, S754_infinity s' => Bool.eqb s s'
  | S754_nan, S754_nan => true
  | S754_finite s m e, S754_finite s' m' e' =>
      Bool.eqb s s' && (m =? m')%positive && (e =? e')
  | _, _ => false
  end.

Lemma same_eq (x y : float) : same x y = true -> x = y.
Proof.
  unfold same. intros H. apply Prim2SF_inj.
  destruct (Prim2SF x) as [s|s| |s m e], (Prim2SF y) as [s'|s'| |s' m' e'];
    try discriminate; try reflexivity.
  - apply Bool.eqb_prop in H. now subst.
  - apply Bool.eqb_prop in H. now subst.
  - apply andb_true_iff in H as [H He]. apply andb_true_iff in H as [Hs Hm].
    apply Bool.eqb_prop in Hs. apply Pos.eqb_eq in Hm. apply Z.eqb_eq in He. now subst.
Qed.

Definition roundedTob (f : nat) (p q n : Z) : bool :=
  2 * Z.abs (n * q - p * 10 ^ Z.of_nat f) <=? q.

Lemma roundedTob_spec (f : nat) (p q n : Z) :
  roundedTob f p q n = true <-> roundedTo f (p, q) n.
Proof. unfold roundedTob, roundedTo. apply Z.leb_le. Qed.

Definition upto (n : nat) : list Z := map Z.of_nat (seq 0 (S n)).

Lemma In_upto (n : nat) (z : Z) : 0 <= z <= Z.of_nat n -> In z (upto n).
Proof.
  intros Hz. unfold upto. apply in_map_iff. exists (Z.to_nat z).
  split; [lia|]. apply in_seq. lia.
Qed.

(** "Rounded to [f] decimals", in the words of the specification: the
    digits of the decimal with [f] places nearest to [p / q], the larger
    one of two. *)
Definition roundedHalfUp (f : nat) (p q : Z) : Z :=
  (2 * p * 10 ^ Z.of_nat f + q) / (2 * q).

(** The printed rate has the digits [n] of a two-decimal numeral nearest
    to the exact [100 * bookings / views], and read back it is the double
    [n / 100]. *)
Definition rateChecked (views bookings : Z) : bool :=
  match conversionRateValue views bookings with
  | Str (Fixed false n 2) =>
      roundedTob 2 (100 * bookings) views n
      && same (parseFloat (Fixed false n 2)) (of_Z n / 100)%float
  | _ => false
  end.

(** Up to 200 views and 50 bookings. *)
Lemma conversion_rate_table :
  forallb (fun v => forallb (fun b => (v =? 0) || rateChecked v b) (upto 50)) (upto 200)
  = true.
Proof. vm_compute. reflexivity. Qed.

Lemma conversion_rate_small (views bookings : Z) :
  0 < views <= 200 -> 0 <= bookings <= 50 ->
  exists n,
    conversionRateValue views bookings = Str (Fixed false n 2)
    /\ roundedTo 2 (100 * bookings, views) n
    /\ computeConversionRate views bookings = (of_Z n / 100)%float.
Proof.
  intros Hv Hb.
  pose proof (proj1 (forallb_forall _ _) conversion_rate_table views
                (In_upto 200 views ltac:(lia))) as H.
  cbv beta in H.
  pose proof (proj1 (forallb_forall _ _) H bookings (In_upto 50 bookings ltac:(lia))) as H'.
  cbv beta in H'.
  assert ((views =? 0) = false) as E by (apply Z.eqb_neq; lia).
  rewrite E in H'. simpl in H'. unfold rateChecked in H'.
  unfold computeConversionRate.
  destruct (conversionRateValue views bookings) as [x|[[] n [|[|[|f]]]|x]];
    try discriminate.
  apply andb_true_iff in H' as [H1 H2].
  exists n. split; [reflexivity|]. split.
  - now apply roundedTob_spec.
  - now apply same_eq.
Qed.

(** C6, as stated, fails on a decimal tie.  For 160 views and 23 bookings
    the exact rate is 14.375, which rounds to 14.38; the double the
    route computes lies below it, [toFixed(2)] prints "14.37" and the rate
    returned is 14.37. *)
Lemma conversion_rate_tie :
  100 * 23 * 1000 = 14375 * 160
  /\ roundedHalfUp 2 (100 * 23) 160 = 1438
  /\ conversionRateValue 160 23 = Str (Fixed false 1437 2)
  /\ computeConversionRate 160 23 = (of_Z 1437 / 100)%float.
Proof. repeat split; vm_compute; reflexivity. Qed.

(** C6, amended.  The conversion rate of both analytics routes is exactly
    0 when there are no views, and with views it is
    [(bookings / views) * 100], computed in doubles, printed by
    [toFixed(2)] and read back: "0.00" and 0 for a product that is zero,
    otherwise the digits of a two-decimal numeral nearest to the double.
    For up to 200 views and 50 bookings these are the digits [n] of a
    two-decimal numeral nearest to the exact [100 * bookings / views],
    either neighbour on a tie, and the rate is the double [n / 100]; for
    10 views and 2 bookings the string is "20.00" and the rate 20.  The
    owner route feeds it the summed lengths of [viewedBy] and the number
    of bookings of the owner's active, visible properties, the property
    route the property's two counters. *)
Theorem conversion_rate_rounded :
  (forall views bookings : Z, views <= 0 ->
     conversionRateValue views bookings = Num 0%float
     /\ computeConversionRate views bookings = 0%float)
  /\ (forall (views bookings : Z) (s : bool),
        0 < views ->
        Prim2SF (of_Z bookings / of_Z views * 100)%float = S754_zero s ->
        conversionRateValue views bookings = Str (Fixed false 0 2)
        /\ computeConversionRate views bookings = 0%float)
  /\ (forall (views bookings : Z) (s : bool) (m : positive) (e : Z),
        0 < views ->
        Prim2SF (of_Z bookings / of_Z views * 100)%float = S754_finite s m e ->
        inRange (of_Z bookings / of_Z views * 100)%float = true ->
        conversionRateValue views bookings = Str (Fixed s (nearest 2 m e) 2)
        /\ roundedTo 2 (fraction (Z.pos m) e) (nearest 2 m e))
  /\ (forall views bookings : Z,
        0 < views <= 200 -> 0 <= bookings <= 50 ->
        exists n,
          conversionRateValue views bookings = Str (Fixed false n 2)
          /\ roundedTo 2 (100 * bookings, views) n
          /\ computeConversionRate views bookings = (of_Z n / 100)%float)
  /\ (conversionRateValue 10 2 = Str (Fixed false 2000 2)
      /\ computeConversionRate 10 2 = 20%float)
  /\ (forall (o : string) (db : Store),
        totalViews (ownerAnalytics o db) = total (map viewedBy_length (portfolio o db))
        /\ totalBookings (ownerAnalytics o db)
           = count (inPortfolio booking_property o db (bookings db))
        /\ conversionRate (ownerAnalytics o db)
           = computeConversionRate (totalViews (ownerAnalytics o db))
               (totalBookings (ownerAnalytics o db)))
  /\ (forall p : Property,
        propertyConversionRate p
        = computeConversionRate (analytics_views p) (analytics_bookings p)).
Proof.
  split; [|split; [|split; [|split; [|split; [|split]]]]].
  - intros views bookings Hv.
    unfold computeConversionRate, conversionRateValue.
    assert ((0 <? views) = false) as -> by (apply Z.ltb_ge; exact Hv).
    split; reflexivity.
  - intros views bookings s Hv Hx.
    unfold computeConversionRate, conversionRateValue.
    assert ((0 <? views) = true) as -> by (apply Z.ltb_lt; exact Hv).
    rewrite (toFixed_zero 2 _ s Hx). split; reflexivity.
  - intros views bookings s m e Hv Hx Hr.
    unfold conversionRateValue.
    assert ((0 <? views) = true) as -> by (apply Z.ltb_lt; exact Hv).
    rewrite (toFixed_finite 2 _ s m e Hx Hr).
    split; [reflexivity | apply nearest_rounds].
  - exact conversion_rate_small.
  - split; vm_compute; reflexivity.
  - intros o db. split; [|split]; try reflexivity.
    unfold ownerAnalytics. simpl. rewrite fold_views. reflexivity.
  - reflexivity.
Qed.

Lemma conversion_rate_rounded_witness :
  exists n,
    conversionRateValue 160 3 = Str (Fixed false n 2)
    /\ roundedTo 2 (100 * 3, 160) n
    /\ computeConversionRate 160 3 = (of_Z n / 100)%float.
Proof.
  apply (proj1 (proj2 (proj2 (proj2 conversion_rate_rounded))) 160 3); lia.
Defined.

(** *** The average rating *)

Lemma Math_round_nearest (x : float) (s : bool) (m : positive) (e : Z) :
  Prim2SF x = S754_finite s m e -> e < 0 ->
  let k := (2 * signed s m + 2 ^ (- e)) / 2 ^ (1 - e) in
  Math_round x = (if k =? 0 then (if s then (-0)%float else 0%float) else of_Z k)
  /\ roundedTo 0 (fraction (signed s m) e) k.
Proof.
  intros Hx He k. split.
  - unfold Math_round. rewrite Hx.
    assert ((0 <=? e) = false) as -> by (apply Z.leb_gt; exact He).
    reflexivity.
  - unfold roundedTo, fraction.
    assert ((0 <=? e) = false) as -> by (apply Z.leb_gt; exact He).
    assert (Hq : 0 < 2 ^ (- e)) by (apply Z.pow_pos_nonneg; lia).
    unfold k.
    replace (2 ^ (1 - e)) with (2 * 2 ^ (- e))
      by (replace (1 - e) with (Z.succ (- e)) by lia; rewrite Z.pow_succ_r; lia).
    change (10 ^ Z.of_nat 0) with 1. rewrite Z.mul_1_r.
    apply half_up_nearest. exact Hq.
Qed.

(** The reviews the detail route reads for a property. *)
Definition activeReviews (i : string) (db : Views.Store) : list Views.Review :=
  List.filter (fun r => String.eqb (Views.review_property r) i && Views.review_isActive r)
    (Views.reviews db).

Lemma getProperty_answer (oid : string -> bool) (now stamp : Z) (req : Views.DetailRequest)
    (db : Views.Store) (p : Views.Property) :
  Views.properties db !! Views.id req = Some p ->
  fst (Views.getProperty oid now stamp req db)
  = Respond 200 (Document
      {| Views.detail_property := p;
         Views.detail_averageRating :=
           Views.detailAverageRating (activeReviews (Views.id req) db);
         Views.detail_reviewCount :=
           Z.of_nat (length (activeReviews (Views.id req) db)) |}).
Proof.
  intros Hp.
  unfold Views.getProperty, tryCatch, mbind, Eff_bind, Views.Property_findById, reads,
    Views.trackView.
  rewrite Hp.
  destruct (Views.userId req) as [u|].
  - destruct (negb (String.eqb (Views.owner p) u)); [|reflexivity].
    destruct (negb (existsb (Views.viewedByUser u) (Views.viewedBy p))); reflexivity.
  - destruct (negb (existsb (Views.viewedFromIP now (Views.userIP req)) (Views.viewedBy p)));
      reflexivity.
Qed.

(** The sums [reduce] computes are the sums of the ratings. *)
Lemma fold_ratings {A} (rating : A -> Z) (rs : list A) (z : Z) :
  fold_left (fun sum r => sum + rating r) rs z = z + total (map rating rs).
Proof.
  revert z. induction rs as [|r rs IH]; intros z; simpl; [lia|].
  rewrite IH. lia.
Qed.

Lemma sumRatings_total (rs : list Review) : sumRatings rs = total (map rating rs).
Proof. unfold sumRatings. now rewrite fold_ratings. Qed.

Lemma detail_sumRatings_total (rs : list Views.Review) :
  Views.sumRatings rs = total (map Views.rating rs).
Proof. unfold Views.sumRatings. now rewrite fold_ratings. Qed.

(** Ratings from 1 to 5 add up to between one and five times their number. *)
Lemma total_stars (l : list Z) :
  (forall x, In x l -> 1 <= x <= 5) ->
  Z.of_nat (length l) <= total l <= 5 * Z.of_nat (length l).
Proof.
  induction l as [|x l IH]; intros H; [simpl; lia|].
  pose proof (H x (or_introl eq_refl)).
  assert (Z.of_nat (length l) <= total l <= 5 * Z.of_nat (length l))
    by (apply IH; intros y Hy; apply H; now right).
  cbn [length total fold_right]. fold (total l). lia.
Qed.

(** The property's reviews among those of the portfolio are its reviews. *)
Lemma ofProperty_inPortfolio (o : string) (db : Store) (p : Property) :
  In p (portfolio o db) ->
  ofProperty review_property p (inPortfolio review_property o db (reviews db))
  = List.filter (fun r => String.eqb (review_property r) (property_id p)) (reviews db).
Proof.
  intros Hp. unfold ofProperty, inPortfolio.
  induction (reviews db) as [|r rs IH]; [reflexivity|].
  cbn [List.filter].
  destruct (String.eqb (review_property r) (property_id p)) eqn:E.
  - assert (existsb (fun q => String.eqb (review_property r) (property_id q))
              (portfolio o db) = true) as ->.
    { apply existsb_exists. exists p. now split. }
    cbn [List.filter]. rewrite E. now rewrite IH.
  - destruct (existsb _ (portfolio o db)); [cbn [List.filter]; rewrite E|]; exact IH.
Qed.

(** The two roundings of a mean of [count] ratings adding up to [sum]. *)
Definition printedMean (sum count : Z) : Numeral := toFixed 1 (of_Z sum / of_Z count)%float.

Definition roundedMean (sum count : Z) : float :=
  (Math_round (of_Z sum / of_Z count * 10) / 10)%float.

(** Each is [n / 10] for digits [n] nearest to the exact mean; the digits
    of the second are found by printing it. *)
Definition meanChecked (sum count : Z) : bool :=
  match printedMean sum count with
  | Fixed false n 1 =>
      roundedTob 1 sum count n && same (parseFloat (Fixed false n 1)) (of_Z n / 10)%float
  | _ => false
  end
  && let r := roundedMean sum count in
     match toFixed 1 r with
     | Fixed false n 1 => roundedTob 1 sum count n && same r (of_Z n / 10)%float
     | _ => false
     end.

(** Up to 40 ratings from 1 to 5. *)
Lemma average_rating_table :
  forallb (fun c =>
    forallb (fun k => (c =? 0) || (4 * c <? k) || meanChecked (c + k) c) (upto 160))
    (upto 40)
  = true.
Proof. vm_compute. reflexivity. Qed.

Lemma average_rating_small (sum count : Z) :
  0 < count <= 40 -> count <= sum <= 5 * count ->
  (exists n,
     printedMean sum count = Fixed false n 1
     /\ roundedTo 1 (sum, count) n
     /\ parseFloat (printedMean sum count) = (of_Z n / 10)%float)
  /\ (exists n,
        roundedMean sum count = (of_Z n / 10)%float
        /\ roundedTo 1 (sum, count) n).
Proof.
  intros Hc Hs.
  pose proof (proj1 (forallb_forall _ _) average_rating_table count
                (In_upto 40 count ltac:(lia))) as H.
  cbv beta in H.
  pose proof (proj1 (forallb_forall _ _) H (sum - count)
                (In_upto 160 (sum - count) ltac:(lia))) as H'.
  cbv beta in H'.
  assert ((count =? 0) = false) as E by (apply Z.eqb_neq; lia).
  assert ((4 * count <? sum - count) = false) as E' by (apply Z.ltb_ge; lia).
  rewrite E, E' in H'. simpl in H'.
  replace (count + (sum - count)) with sum in H' by lia.
  unfold meanChecked in H'. cbv zeta in H'. apply andb_true_iff in H' as [H1 H2]. split.
  - destruct (printedMean sum count) as [[] n [|[|f]]|x]; try discriminate.
    apply andb_true_iff in H1 as [H1 H3].
    exists n. split; [reflexivity|]. split.
    + now apply roundedTob_spec.
    + now apply same_eq.
  - destruct (toFixed 1 (roundedMean sum count)) as [[] n [|[|f]]|x]; try discriminate.
    apply andb_true_iff in H2 as [H2 H3].
    exists n. split.
    + now apply same_eq.
    + now apply roundedTob_spec.
Qed.

(** Twenty ratings, seven of 5 and thirteen of 4: their mean is 4.35. *)
Definition twenty : list Review :=
  (repeat {| review_property := "p1"; rating := 5 |} 7
   ++ repeat {| review_property := "p1"; rating := 4 |} 13)%list.

Definition twentyActive : list Views.Review :=
  (repeat {| Views.review_property := "p1"; Views.rating := 5;
             Views.review_isActive := true |} 7
   ++ repeat {| Views.review_property := "p1"; Views.rating := 4;
                Views.review_isActive := true |} 13)%list.

(** C7, as stated, fails on a decimal tie, where the two routes part.
    For these twenty ratings the mean is 4.35, which rounds to 4.4; the
    double nearest to it lies below it, so [toFixed(1)] prints "4.3" and
    the owner analytics answer 4.3, while ten times that double is the
    double 43.5, [Math.round] gives 44 and the detail route answers 4.4. *)
Lemma rating_tie_two_routes :
  total (map rating twenty) = 87 /\ count twenty = 20
  /\ map Views.rating twentyActive = map rating twenty
  /\ roundedHalfUp 1 87 20 = 44
  /\ averageRatingValue twenty = Str (Fixed false 43 1)
  /\ parseFloatValue (averageRatingValue twenty) = (of_Z 43 / 10)%float
  /\ Views.detailAverageRating twentyActive = (of_Z 44 / 10)%float.
Proof. repeat split; vm_compute; reflexivity. Qed.

(** C7, amended.  With no reviews the average rating is exactly 0 on
    every route: in the owner analytics, in each property's row of it,
    and in the property detail.  The owner analytics compute theirs from
    the reviews of the owner's active, visible properties, each row from
    the reviews of its property, the detail route from the active reviews
    of the property.  With reviews, the analytics print [sum / count],
    [sum] being the sum of the ratings, by [toFixed(1)], the digits being
    those of a one-decimal numeral nearest to that double, and the detail
    route returns [Math.round(sum / count * 10) / 10], the rounded value
    being an integer nearest to the product.  For up to 40 ratings from 1
    to 5, either value is a one-decimal numeral [n / 10] nearest to the
    exact mean, either neighbour on a tie. *)
Theorem average_rating_rounded :
  (averageRatingValue [] = Num 0%float
   /\ parseFloatValue (averageRatingValue []) = 0%float
   /\ Views.detailAverageRating [] = 0%float)
  /\ (forall (o : string) (db : Store),
        averageRating (ownerAnalytics o db)
        = parseFloatValue (averageRatingValue (inPortfolio review_property o db (reviews db)))
        /\ map pa_averageRating (propertyAnalytics (ownerAnalytics o db))
           = map (fun p =>
                    averageRatingValue
                      (List.filter
                         (fun r => String.eqb (review_property r) (property_id p))
                         (reviews db)))
                 (portfolio o db))
  /\ (forall (oid : string -> bool) (now stamp : Z) (req : Views.DetailRequest)
             (db : Views.Store) (p : Views.Property),
        Views.properties db !! Views.id req = Some p ->
        fst (Views.getProperty oid now stamp req db)
        = Respond 200 (Document
            {| Views.detail_property := p;
               Views.detail_averageRating :=
                 Views.detailAverageRating (activeReviews (Views.id req) db);
               Views.detail_reviewCount :=
                 Z.of_nat (length (activeReviews (Views.id req) db)) |}))
  /\ (forall (rs : list Review) (s : bool) (m : positive) (e : Z),
        rs <> [] ->
        Prim2SF (of_Z (total (map rating rs)) / of_Z (count rs))%float = S754_finite s m e ->
        inRange (of_Z (total (map rating rs)) / of_Z (count rs))%float = true ->
        averageRatingValue rs = Str (Fixed s (nearest 1 m e) 1)
        /\ roundedTo 1 (fraction (Z.pos m) e) (nearest 1 m e))
  /\ (forall (rs : list Views.Review) (s : bool) (m : positive) (e : Z),
        rs <> [] ->
        let mean :=
          (of_Z (total (map Views.rating rs)) / of_Z (Z.of_nat (length rs)))%float in
        Prim2SF (mean * 10)%float = S754_finite s m e -> e < 0 ->
        let k := (2 * signed s m + 2 ^ (- e)) / 2 ^ (1 - e) in
        Views.detailAverageRating rs
        = ((if (k =? 0)%Z then (if s then -0 else 0) else of_Z k) / 10)%float
        /\ roundedTo 0 (fraction (signed s m) e) k)
  /\ (forall rs : list Review,
        rs <> [] -> (length rs <= 40)%nat ->
        (forall r, In r rs -> 1 <= rating r <= 5) ->
        exists n,
          averageRatingValue rs = Str (Fixed false n 1)
          /\ roundedTo 1 (total (map rating rs), count rs) n
          /\ parseFloatValue (averageRatingValue rs) = (of_Z n / 10)%float)
  /\ (forall rs : list Views.Review,
        rs <> [] -> (length rs <= 40)%nat ->
        (forall r, In r rs -> 1 <= Views.rating r <= 5) ->
        exists n,
          Views.detailAverageRating rs = (of_Z n / 10)%float
          /\ roundedTo 1 (total (map Views.rating rs), Z.of_nat (length rs)) n).
Proof.
  split; [|split; [|split; [|split; [|split; [|split]]]]].
  - repeat split; vm_compute; reflexivity.
  - intros o db. split; [reflexivity|].
    unfold ownerAnalytics. cbn [propertyAnalytics]. rewrite map_map. cbn [pa_averageRating].
    apply map_ext_in. intros p Hp.
    rewrite <- (ofProperty_inPortfolio o db p Hp). reflexivity.
  - exact getProperty_answer.
  - intros rs s m e Hrs Hx Hr. unfold averageRatingValue.
    rewrite (count_pos rs Hrs), sumRatings_total, (toFixed_finite 1 _ s m e Hx Hr).
    split; [reflexivity | apply nearest_rounds].
  - intros rs s m e Hrs mean Hx He k.
    destruct (Math_round_nearest (mean * 10)%float s m e Hx He) as [Hk Hn].
    split; [|exact Hn].
    unfold Views.detailAverageRating. fold k in Hk.
    assert ((0 <? Z.of_nat (length rs)) = true) as ->
      by (destruct rs; [congruence | apply Z.ltb_lt; simpl; lia]).
    rewrite detail_sumRatings_total. fold mean. rewrite Hk. reflexivity.
  - intros rs Hrs Hl Hr.
    assert (Hc : 0 < count rs <= 40).
    { unfold count. destruct rs; [congruence|]. simpl in *. lia. }
    assert (Hs : count rs <= total (map rating rs) <= 5 * count rs).
    { unfold count. rewrite <- (length_map rating rs). apply total_stars.
      intros x Hx. apply in_map_iff in Hx as (r & <- & Hin). now apply Hr. }
    destruct (average_rating_small _ _ Hc Hs) as [(n & H1 & H2 & H3) _].
    exists n. unfold averageRatingValue.
    rewrite (count_pos rs Hrs), sumRatings_total.
    fold (printedMean (total (map rating rs)) (count rs)).
    split; [now rewrite H1|]. split; [exact H2 | exact H3].
  - intros rs Hrs Hl Hr.
    assert (Hc : 0 < Z.of_nat (length rs) <= 40).
    { destruct rs; [congruence|]. simpl in *. lia. }
    assert (Hs : Z.of_nat (length rs) <= total (map Views.rating rs)
                 <= 5 * Z.of_nat (length rs)).
    { rewrite <- (length_map Views.rating rs). apply total_stars.
      intros x Hx. apply in_map_iff in Hx as (r & <- & Hin). now apply Hr. }
    destruct (average_rating_small _ _ Hc Hs) as [_ (n & H1 & H2)].
    exists n. split; [|exact H2].
    unfold Views.detailAverageRating.
    assert ((0 <? Z.of_nat (length rs)) = true) as -> by (apply Z.ltb_lt; lia).
    rewrite detail_sumRatings_total. exact H1.
Qed.

Lemma average_rating_rounded_witness :
  exists n,
    averageRatingValue twenty = Str (Fixed false n 1)
    /\ roundedTo 1 (total (map rating twenty), count twenty) n
    /\ parseFloatValue (averageRatingValue twenty) = (of_Z n / 10)%float.
Proof.
  apply (proj1 (proj2 (proj2 (proj2 (proj2 (proj2 average_rating_rounded))))) twenty).
  - discriminate.
  - simpl. lia.
  - intros r Hr. unfold twenty in Hr. apply in_app_or in Hr as [Hr|Hr];
      apply repeat_spec in Hr; subst r; simpl; lia.
Defined.

End AnalyticsProofs.

(** * Further handlers *)

(** [findOneAndUpdate]: the first document that matches is updated. *)
Fixpoint updateFirst {A} (matches : A -> bool) (f : A -> A) (l : list A) : list A :=
  match l with
  | [] => []
  | x :: r => if matches x then f x :: r else x :: updateFirst matches f r
  end.

(** A query that filters on [_id: i] and finds [found]: when nothing
    matches, the result is [null] for an id that casts to an ObjectId, and
    the query throws a CastError for one that does not.  The [_id] of a
    stored document is an ObjectId, so an id that matches one casts. *)
Definition queryById {S A} (isObjectId : string -> bool) (i : string)
    (found : S -> option A) : Eff S (option A) :=
  fun s =>
    match found s with
    | Some a => (Return (Some a), s)
    | None =>
        if isObjectId i then (Return None, s)
        else (Throw "Cast to ObjectId failed", s)
    end.

(** ** The owner's status update of a booking *)

Module BookingStatus.

Import Bookings.

(** The request of [PUT /api/bookings/:id/status]: [status_user] is
    [req.user.id], [status_id] is [req.params.id], [status_value] is
    [req.body.status]. *)
Record StatusRequest : Type := {
  status_user : string;
  status_id : string;
  status_value : string
}.

(** [body('status').isIn(['pending', 'confirmed', 'cancelled', 'completed'])]. *)
Definition status_errors (req : StatusRequest) : list string :=
  if str_in (status_value req) ["pending"; "confirmed"; "cancelled"; "completed"]
  then [] else ["Valid status is required"].

(** [router.put('/:id/status')] of [bookings.js], lines 217-252. *)
Definition updateBookingStatus (req : StatusRequest) : Store -> Response Booking * Store :=
  tryCatch
    (match status_errors req with
     | _ :: _ => mret (Respond 400 (Errors (status_errors req)))
     | [] =>
         b ← Booking_findById (status_id req);
         match b with
         | None => mret (Respond 404 (Message "Booking not found"))
         | Some b =>
             p ← Property_findById (property b);
             match p with
             | None => throw "Cannot read properties of null (reading 'owner')"
             | Some p =>
                 if negb (String.eqb (property_owner p) (status_user req))
                 then mret (Respond 403 (Message "Access denied"))
                 else
                   let booking := set_status (status_value req) b in
                   _ ← Booking_update booking;
                   mret (Respond 200 (Document booking))
             end
         end
     end)
    (fun _ => Respond 500 (Message "Server error")).

End BookingStatus.

(** ** Soft deletion of a property *)

Module PropertyAdmin.

Import Views.


Section Delete.

Variable isObjectId : string -> bool.

(** [passesSchema i] tells whether the stored document [i] passes the
    schema's validation of the fields the record leaves out (title,
    price, location, ...), which [save] runs. *)
Variable passesSchema : string -> bool.


End Delete.

End PropertyAdmin.

(** ** Visibility of a property *)

Module Visibility.

Import Analytics.

Definition set_isVisible (v : bool) (p : Property) : Property :=
  {| property_id := property_id p; property_owner := property_owner p;
     isActive := isActive p; isVisible := v;
     viewedBy_length := viewedBy_length p; analytics_views := analytics_views p;
     analytics_bookings := analytics_bookings p |}.

(** The filter [{ _id: req.params.id, owner: req.user.id }]. *)
Definition ownedBy (userId i : string) (p : Property) : bool :=
  String.eqb (property_id p) i && String.eqb (property_owner p) userId.

(** [router.put('/property/:id/visibility')] of [owner.js], lines 135-154;
    [isVisible] is the truth value [!!req.body.isVisible], and
    [isObjectId] tells whether Mongoose casts a string to an ObjectId. *)
Definition setVisibility (isObjectId : string -> bool) (userId i : string)
    (isVisible : bool) : Store -> Response Property * Store :=
  tryCatch
    (p ← queryById isObjectId i (fun db => find (ownedBy userId i) (properties db));
     match p with
     | None => mret (Respond 404 (Message "Property not found"))
     | Some p =>
         _ ← modify (fun db =>
                {| properties := updateFirst (ownedBy userId i) (set_isVisible isVisible)
                                   (properties db);
                   bookings := bookings db; enquiries := enquiries db;
                   favorites := favorites db; reviews := reviews db |});
         mret (Respond 200 (Document (set_isVisible isVisible p)))
     end)
    (fun _ => Respond 500 (Message "Server error")).

End Visibility.

(** ** The notification inbox *)

Module Inbox.

(** [models/Notification.js]: recipient, kind, texts and the read flag. *)
Record Notification : Type := {
  notification_id : string;
  recipient : string;
  kind : string;
  title : string;
  message : string;
  read : bool
}.

Definition mark (n : Notification) : Notification :=
  {| notification_id := notification_id n; recipient := recipient n; kind := kind n;
     title := title n; message := message n; read := true |}.

(** The filter [{ _id: id, user: req.user._id }]. *)
Definition addressedTo (userId i : string) (n : Notification) : bool :=
  String.eqb (notification_id n) i && String.eqb (recipient n) userId.

(** [router.put('/:id/read')] of [notifications.js], lines 29-43;
    [isObjectId] tells whether Mongoose casts a string to an ObjectId. *)
Definition markRead (isObjectId : string -> bool) (userId i : string)
    : list Notification -> Response Notification * list Notification :=
  tryCatch
    (n ← queryById isObjectId i (find (addressedTo userId i));
     match n with
     | None => mret (Respond 404 (Message "Notification not found"))
     | Some n =>
         _ ← modify (updateFirst (addressedTo userId i) mark);
         mret (Respond 200 (Document (mark n)))
     end)
    (fun _ => Respond 500 (Message "Server error")).

(** [router.put('/read-all')], lines 46-54: [updateMany] over
    [{ user: req.user._id, read: false }]. *)
Definition markAllRead (userId : string)
    : list Notification -> Response Notification * list Notification :=
  tryCatch
    (_ ← modify (map (fun n => if String.eqb (recipient n) userId && negb (read n)
                                then mark n else n));
     mret (Respond 200 (Message "All notifications marked as read")))
    (fun _ => Respond 500 (Message "Server error")).

(** The unread notifications of a user, as the list route counts them
    under [unread=true]: [{ user: req.user._id, read: false }]. *)
Definition unreadOf (userId : string) (ns : list Notification) : list Notification :=
  List.filter (fun n => String.eqb (recipient n) userId && negb (read n)) ns.

End Inbox.

(** * Further properties of the handlers *)

(** ** The order on time strings *)

Lemma ascii_compare_trans (a b c : ascii) :
  Ascii.compare a b = Lt -> Ascii.compare b c = Lt -> Ascii.compare a c = Lt.
Proof. unfold Ascii.compare. rewrite !N.compare_lt_iff. lia. Qed.

Lemma string_compare_trans (s t u : string) :
  String.compare s t = Lt -> String.compare t u = Lt -> String.compare s u = Lt.
Proof.
  revert t u. induction s as [|a s IH]; intros [|b t] [|c u]; simpl; try congruence.
  destruct (Ascii.compare a b) eqn:Eab; try discriminate.
  - apply Ascii.compare_eq_iff in Eab as ->.
    destruct (Ascii.compare b c); try congruence. apply IH.
  - intros _. destruct (Ascii.compare b c) eqn:Ebc; try discriminate.
    + apply Ascii.compare_eq_iff in Ebc as <-. now rewrite Eab.
    + now rewrite (ascii_compare_trans a b c Eab Ebc).
Qed.

Lemma str_lt_trans (a b c : string) :
  str_lt a b = true -> str_lt b c = true -> str_lt a c = true.
Proof.
  unfold str_lt, String.ltb. intros Hab Hbc.
  destruct (String.compare a b) eqn:E1; try discriminate.
  destruct (String.compare b c) eqn:E2; try discriminate.
  now rewrite (string_compare_trans a b c E1 E2).
Qed.

(** [a >= b] then [a < c] gives [b < c]. *)
Lemma str_gte_lt_trans (a b c : string) :
  str_gte a b = true -> str_lt a c = true -> str_lt b c = true.
Proof.
  unfold str_gte. intros Hge Hlt. apply negb_true_iff in Hge.
  unfold str_lt, String.ltb in Hge.
  destruct (String.compare a b) eqn:E; try discriminate.
  - apply String.compare_eq_iff in E as <-. exact Hlt.
  - apply (str_lt_trans b a c); [|exact Hlt].
    unfold str_lt, String.ltb. rewrite String.compare_antisym, E. reflexivity.
Qed.

(** ** Consultations: what booking keeps *)

Module ConsultationInvariants.

Import Consultations.

(** The key of the unique index [{ date: 1, startTime: 1, expert: 1 }]. *)
Definition slotKey (c : ExpertConsultation) : Z * string * string :=
  (date c, startTime c, expert c).

Definition uniqueSlots (cs : list ExpertConsultation) : Prop :=
  NoDup (map slotKey cs).

(** The test of [checkExpertAvailability] without its second alternative. *)
Definition overlapFilter (expertId : string) (d : Z) (start finish : string)
    (c : ExpertConsultation) : bool :=
  String.eqb (expert c) expertId
  && (date c =? d)
  && (str_lt (startTime c) finish && str_lt start (endTime c))
  && negb (str_in (status_name (status c)) ["cancelled"; "rejected"]).

(** A window whose start is before its end, as strings. *)
Definition proper (c : ExpertConsultation) : Prop :=
  str_lt (startTime c) (endTime c) = true.

Lemma duplicateKey_spec (c : ExpertConsultation) (cs : list ExpertConsultation) :
  duplicateKey c cs = true <-> In (slotKey c) (map slotKey cs).
Proof.
  unfold duplicateKey, slotKey. rewrite existsb_exists, in_map_iff. split.
  - intros (x & Hin & H). exists x. split; [|exact Hin].
    apply andb_true_iff in H as [H He]. apply andb_true_iff in H as [Hd Hs].
    apply Z.eqb_eq in Hd. apply String.eqb_eq in Hs, He. congruence.
  - intros (x & [= Hd Hs He] & Hin). exists x. split; [exact Hin|].
    rewrite Hd, Hs, He, Z.eqb_refl, !String.eqb_refl. reflexivity.
Qed.

Section Booking.

Variable clock : string -> option Z.
Variable app_io : bool.

(** What a call can do to the store: nothing, or append the one document
    built from the request after every check of [save] has passed. *)
Lemma book_cases (req : BookRequest) (db : Store) :
  snd (bookConsultation clock app_io req db) = db
  \/ exists e,
       find (fun e => String.eqb (expert_id e) (expertId req)) (experts db) = Some e
       /\ checkAvailable (consultations db) (expertId req) (req_date req)
            (req_startTime req) (req_endTime req) = true
       /\ validConsultation (ConsultationProofs.booked req e) = true
       /\ date_ge (clock (req_startTime req)) (clock (req_endTime req)) = false
       /\ duplicateKey (ConsultationProofs.booked req e) (consultations db) = false
       /\ snd (bookConsultation clock app_io req db)
          = with_consultations
              (fun cs => (cs ++ [ConsultationProofs.booked req e])%list) db.
Proof.
  destruct (find (fun e => String.eqb (expert_id e) (expertId req)) (experts db))
    as [e|] eqn:He.
  2: { left. now rewrite (ConsultationProofs.book_no_expert clock app_io req db He). }
  destruct (checkAvailable (consultations db) (expertId req) (req_date req)
              (req_startTime req) (req_endTime req)) eqn:Ha.
  2: { left. now rewrite (ConsultationProofs.book_unavailable clock app_io req db e He Ha). }
  rewrite (ConsultationProofs.book_available clock app_io req db e He Ha).
  unfold save, preSave, mbind, Eff_bind, reads, throw, modify, mret, Eff_ret.
  destruct (validConsultation (ConsultationProofs.booked req e)) eqn:Hv; simpl;
    [|now left].
  destruct (date_ge (clock (req_startTime req)) (clock (req_endTime req))) eqn:Hd;
    [now left|].
  destruct (find _ (consultations db)); [now left|].
  destruct (duplicateKey (ConsultationProofs.booked req e) (consultations db)) eqn:Hk;
    [now left|].
  right. exists e. repeat split; auto.
Qed.

(** X1. Booking keeps the unique index: when no two stored consultations
    share date, start time and expert, none do after [bookConsultation],
    whatever the request. *)
Theorem booking_keeps_unique_slots (req : BookRequest) (db : Store) :
  uniqueSlots (consultations db) ->
  uniqueSlots (consultations (snd (bookConsultation clock app_io req db))).
Proof.
  intros Hu. destruct (book_cases req db) as [-> | (e & _ & _ & _ & _ & Hk & ->)];
    [exact Hu|].
  unfold uniqueSlots. simpl. rewrite map_app. simpl.
  apply NoDup_app. split; [exact Hu|]. split.
  - intros k Hin [<-|[]]%list_elem_of_In.
    apply list_elem_of_In, duplicateKey_spec in Hin. congruence.
  - apply NoDup_singleton.
Qed.

(** X2. Booking keeps the windows well-formed: when no stored
    consultation has a start that [Date] places at or after its end, none
    has after [bookConsultation]. *)
Theorem booking_keeps_windows (req : BookRequest) (db : Store) :
  Forall (fun c => date_ge (clock (startTime c)) (clock (endTime c)) = false)
    (consultations db) ->
  Forall (fun c => date_ge (clock (startTime c)) (clock (endTime c)) = false)
    (consultations (snd (bookConsultation clock app_io req db))).
Proof.
  intros Hw. destruct (book_cases req db) as [-> | (e & _ & _ & _ & Hd & _ & ->)];
    [exact Hw|].
  simpl. apply Forall_app. split; [exact Hw|].
  constructor; [exact Hd | constructor].
Qed.

(** X3. [bookConsultation] never writes an activity log or a notification,
    never emits, never touches the experts, and never changes or removes a
    stored consultation: the collection stays as it was or grows by the
    one scheduled document built from the request, with its notes trimmed
    as the schema does and the expert's fee as its amount. *)
Theorem booking_only_appends (req : BookRequest) (db : Store) :
  let db' := snd (bookConsultation clock app_io req db) in
  experts db' = experts db
  /\ communicationLogs db' = communicationLogs db
  /\ notifications db' = notifications db
  /\ emitted db' = emitted db
  /\ (consultations db' = consultations db
      \/ exists e,
           find (fun e => String.eqb (expert_id e) (expertId req)) (experts db) = Some e
           /\ consultations db'
              = (consultations db
                 ++ [{| user := req_user req; expert := expertId req;
                        date := req_date req; startTime := req_startTime req;
                        endTime := req_endTime req; notes := trim (req_notes req);
                        amount := consultationFee e; status := scheduled |}])%list).
Proof.
  intros db'. unfold db'.
  destruct (book_cases req db) as [-> | (e & He & _ & _ & _ & _ & ->)].
  - repeat split; auto.
  - repeat split; auto. right. exists e. split; [exact He | reflexivity].
Qed.

(** X5. A start time once taken is never booked again: when any stored
    consultation of the expert on the date, cancelled ones included, has
    the requested start time, [bookConsultation] stores nothing. *)
Theorem taken_start_never_rebooked (req : BookRequest) (db : Store)
    (c : ExpertConsultation) :
  In c (consultations db) ->
  expert c = expertId req ->
  date c = req_date req ->
  startTime c = req_startTime req ->
  snd (bookConsultation clock app_io req db) = db.
Proof.
  intros Hin He Hd Hs.
  destruct (book_cases req db) as [H | (e & _ & _ & _ & _ & Hk & _)]; [exact H|].
  assert (duplicateKey (ConsultationProofs.booked req e) (consultations db) = true).
  { apply duplicateKey_spec. apply in_map_iff. exists c. split; [|exact Hin].
    unfold slotKey. simpl. congruence. }
  congruence.
Qed.

End Booking.

Lemma booking_keeps_unique_slots_witness :
  uniqueSlots
    (consultations
       (snd (bookConsultation hhmm true (ConsultationProofs.request "15:00" "16:00")
               (ConsultationProofs.store confirmed)))).
Proof.
  apply (booking_keeps_unique_slots hhmm true).
  unfold uniqueSlots. simpl. apply NoDup_singleton.
Defined.

Lemma booking_keeps_windows_witness :
  Forall (fun c => date_ge (hhmm (startTime c)) (hhmm (endTime c)) = false)
    (consultations
       (snd (bookConsultation hhmm true (ConsultationProofs.request "15:00" "16:00")
               (ConsultationProofs.store confirmed)))).
Proof.
  apply (booking_keeps_windows hhmm true).
  simpl. constructor; [reflexivity | constructor].
Defined.

(** The cancelled 14:00-15:00 slot leaves the window free for the check,
    and still a request starting at 14:00 is not stored. *)
Lemma taken_start_never_rebooked_witness :
  checkAvailable (consultations (ConsultationProofs.store cancelled)) "e1"
    ConsultationProofs.june1 "14:00" "16:00" = true
  /\ snd (bookConsultation hhmm true (ConsultationProofs.request "14:00" "16:00")
            (ConsultationProofs.store cancelled))
     = ConsultationProofs.store cancelled.
Proof.
  split; [reflexivity|].
  apply (taken_start_never_rebooked hhmm true (ConsultationProofs.request "14:00" "16:00")
           (ConsultationProofs.store cancelled) (ConsultationProofs.slot cancelled)).
  - left. reflexivity.
  - reflexivity.
  - reflexivity.
  - reflexivity.
Defined.

(** For a stored window whose start is before its end the second
    alternative of the filter adds no match. *)
Lemma slotFilter_proper (c : ExpertConsultation) (i : string) (d : Z) (s f : string) :
  proper c -> slotFilter i d s f c = overlapFilter i d s f c.
Proof.
  intros Hp. unfold slotFilter, overlapFilter, str_gt. fold (str_lt s (endTime c)).
  destruct (str_lt (startTime c) f) eqn:A; simpl.
  - destruct (str_lt s (endTime c)) eqn:B; simpl; [reflexivity|].
    destruct (str_gte (startTime c) s) eqn:C; simpl; [|reflexivity].
    rewrite (str_gte_lt_trans _ _ _ C Hp) in B. discriminate.
  - now rewrite andb_false_r.
Qed.

(** X4. On a collection whose windows all start before they end, the slot
    is reported available exactly when no stored consultation of the
    expert on the date, other than a cancelled one, overlaps the request
    half-open: the filter's second alternative never decides. *)
Theorem availability_is_half_open_overlap (cs : list ExpertConsultation)
    (i : string) (d : Z) (s f : string) :
  Forall proper cs ->
  checkAvailable cs i d s f = negb (existsb (overlapFilter i d s f) cs).
Proof.
  intros Hp. unfold checkAvailable.
  induction Hp as [|c cs Hc _ IH]; [reflexivity|].
  simpl. rewrite (slotFilter_proper c i d s f Hc).
  destruct (overlapFilter i d s f c); [reflexivity | exact IH].
Qed.

Lemma availability_is_half_open_overlap_witness :
  checkAvailable [ConsultationProofs.slot confirmed] "e1" ConsultationProofs.june1
    "14:30" "15:30"
  = negb (existsb (overlapFilter "e1" ConsultationProofs.june1 "14:30" "15:30")
            [ConsultationProofs.slot confirmed]).
Proof.
  apply availability_is_half_open_overlap.
  constructor; [reflexivity | constructor].
Defined.

(** X6. Conflict is symmetric: of two consultations that are not cancelled
    and whose windows start before they end, the first blocks a request
    for the window of the second exactly when the second blocks a request
    for the window of the first. *)
Theorem conflict_is_symmetric (c1 c2 : ExpertConsultation) :
  proper c1 -> proper c2 ->
  status c1 <> cancelled -> status c2 <> cancelled ->
  slotFilter (expert c2) (date c2) (startTime c2) (endTime c2) c1
  = slotFilter (expert c1) (date c1) (startTime c1) (endTime c1) c2.
Proof.
  intros P1 P2 S1 S2.
  rewrite (slotFilter_proper c1 _ _ _ _ P1), (slotFilter_proper c2 _ _ _ _ P2).
  unfold overlapFilter.
  rewrite (ConsultationProofs.status_name_blocking _ S1),
    (ConsultationProofs.status_name_blocking _ S2).
  rewrite (String.eqb_sym (expert c1)), (Z.eqb_sym (date c1)).
  rewrite (andb_comm (str_lt (startTime c1) (endTime c2))). reflexivity.
Qed.

Lemma conflict_is_symmetric_witness :
  slotFilter "e1" ConsultationProofs.june1 "14:30" "15:30" (ConsultationProofs.slot confirmed)
  = slotFilter "e1" ConsultationProofs.june1 "14:00" "15:00"
      (ConsultationProofs.booked (ConsultationProofs.request "14:30" "15:30")
         ConsultationProofs.expert1).
Proof.
  apply (conflict_is_symmetric (ConsultationProofs.slot confirmed)
           (ConsultationProofs.booked (ConsultationProofs.request "14:30" "15:30")
              ConsultationProofs.expert1)).
  - reflexivity.
  - reflexivity.
  - discriminate.
  - discriminate.
Defined.

End ConsultationInvariants.

(** ** Views: what a fetch keeps *)

Module ViewInvariants.

Import Views.

(** The counter of every property is the number of its view records. *)
Definition consistent (db : Store) : Prop :=
  forall i p, properties db !! i = Some p ->
    analytics_views p = Z.of_nat (length (viewedBy p)).

(** One fetch adds nothing, or one record and one count, to a property. *)
Lemma fetch_grows (oid : string -> bool) (now stamp : Z) (req : DetailRequest)
    (db : Store) (i : string) :
  exists extra,
    viewRecords (snd (getProperty oid now stamp req db)) i = (viewRecords db i ++ extra)%list
    /\ views (snd (getProperty oid now stamp req db)) i
       = views db i + Z.of_nat (length extra)
    /\ (length extra <= 1)%nat
    /\ Forall (fun v => view_user v = userId req) extra.
Proof.
  rewrite ViewProofs.getProperty_store.
  destruct (properties db !! id req) as [p|] eqn:Hp.
  2: { exists []. rewrite app_nil_r. simpl. split; [reflexivity|].
       split; [lia|]. split; [lia | constructor]. }
  destruct (ViewProofs.counted now req p).
  2: { exists []. rewrite app_nil_r. simpl. split; [reflexivity|].
       split; [lia|]. split; [lia | constructor]. }
  unfold viewRecords, views. simpl.
  destruct (decide (id req = i)) as [<-|Hne].
  - rewrite lookup_alter_eq, Hp. simpl.
    exists [ViewProofs.recordOf stamp req]. simpl. split; [reflexivity|].
    split; [lia|]. split; [lia|]. repeat constructor.
  - rewrite lookup_alter_ne by exact Hne.
    exists []. rewrite app_nil_r. simpl. split; [reflexivity|].
    split; [lia|]. split; [lia | constructor].
Qed.

Lemma fetch_consistent (oid : string -> bool) (now stamp : Z) (req : DetailRequest)
    (db : Store) :
  consistent db -> consistent (snd (getProperty oid now stamp req db)).
Proof.
  intros Hc i q. rewrite ViewProofs.getProperty_store.
  destruct (properties db !! id req) as [p|] eqn:Hp; [|apply Hc].
  destruct (ViewProofs.counted now req p); [|apply Hc].
  simpl. destruct (decide (id req = i)) as [<-|Hne].
  - rewrite lookup_alter_eq, Hp. simpl. intros [= <-]. simpl.
    rewrite length_app. simpl. rewrite (Hc _ _ Hp). lia.
  - rewrite lookup_alter_ne by exact Hne. apply Hc.
Qed.

(** X10. The counter and the view records stay in step: when every counter is
    the number of view records of its property, it still is after any
    fetches served one after the other. *)
Theorem counter_matches_records (oid : string -> bool) (fs : list ViewProofs.Fetch)
    (db : Store) :
  consistent db -> consistent (ViewProofs.run oid fs db).
Proof.
  revert db. induction fs as [|[[now stamp] req] fs IH]; intros db Hc; [exact Hc|].
  simpl. apply IH. now apply fetch_consistent.
Qed.

(** X11. View records are only ever appended and the counter never falls: after
    any fetches, the records of a property are the former ones followed by
    new ones, the counter has grown by the number of new ones, and there
    is at most one new record per fetch. *)
Theorem views_only_grow (oid : string -> bool) (fs : list ViewProofs.Fetch) (db : Store)
    (i : string) :
  exists extra,
    viewRecords (ViewProofs.run oid fs db) i = (viewRecords db i ++ extra)%list
    /\ views (ViewProofs.run oid fs db) i = views db i + Z.of_nat (length extra)
    /\ (length extra <= length fs)%nat.
Proof.
  revert db. induction fs as [|[[now stamp] req] fs IH]; intros db.
  - exists []. rewrite app_nil_r. simpl. split; [reflexivity|]. split; lia.
  - simpl. destruct (fetch_grows oid now stamp req db i) as (e1 & H1 & H2 & H3 & _).
    destruct (IH (snd (getProperty oid now stamp req db))) as (e2 & G1 & G2 & G3).
    exists (e1 ++ e2)%list. rewrite G1, G2, H1, H2, app_assoc, length_app.
    split; [reflexivity|]. split; lia.
Qed.

(** X12. The owner's own fetches count like anyone's.  With a token that
    verifies to a payload naming the owner under [userId], without [_id],
    the handler does not learn who fetches: the owner's fetch of the
    property from an address whose view records are all 24 hours old or
    older is answered 200 and counted, with a view record that names no
    user. *)
Theorem owner_fetch_is_counted (verify : string -> option Claims) (oid : string -> bool)
    (now stamp : Z) (db : Store) (i token ip : string) (claims : Claims) (p : Property) :
  verify token = Some claims ->
  claims !! "userId" = Some (owner p) ->
  claims !! "_id" = None ->
  properties db !! i = Some p ->
  (forall v, In v (viewedBy p) -> ipAddress v = ip -> day <= now - viewedAt v) ->
  let r := {| params_id := i; authorization := Some token; remoteAddress := ip |} in
  code (fst (getPropertyRoute verify oid now stamp r db)) = 200
  /\ views (snd (getPropertyRoute verify oid now stamp r db)) i = views db i + 1
  /\ viewRecords (snd (getPropertyRoute verify oid now stamp r db)) i
     = (viewRecords db i
        ++ [{| view_user := None; viewedAt := stamp; ipAddress := ip |}])%list.
Proof.
  intros Hv _ Hid Hp Hold r.
  assert (E : getPropertyRoute verify oid now stamp r db
              = getProperty oid now stamp {| id := i; userId := None; userIP := ip |} db).
  { apply ViewProofs.route_takes_token_for_anonymous.
    intros t c [= <-] Hc. rewrite Hv in Hc. now injection Hc as <-. }
  rewrite E. split.
  - now rewrite (AnalyticsProofs.getProperty_answer oid now stamp
                   {| id := i; userId := None; userIP := ip |} db p Hp).
  - now apply (ViewProofs.fresh_address_counted oid now stamp db i ip p Hp).
Qed.


(** Requests served by the route one after the other, each with the two
    readings of the clock it makes. *)
Definition Visit : Type := (Z * Z * HttpRequest)%type.

Definition serve (verify : string -> option Claims) (oid : string -> bool)
    (vs : list Visit) (db : Store) : Store :=
  fold_left (fun db '(now, stamp, r) => snd (getPropertyRoute verify oid now stamp r db))
    vs db.

(** X14. No view record ever names a user.  When the payloads that verify
    have no [_id], whatever requests the route serves, with or without a
    token, the view records it appends to a property all lack the user:
    the per-user de-duplication never has a record to find. *)
Theorem view_records_name_no_user (verify : string -> option Claims)
    (oid : string -> bool) (vs : list Visit) (db : Store) (i : string) :
  (forall t c, verify t = Some c -> c !! "_id" = None) ->
  exists extra,
    viewRecords (serve verify oid vs db) i = (viewRecords db i ++ extra)%list
    /\ Forall (fun v => view_user v = None) extra.
Proof.
  intros Hv. revert db. induction vs as [|[[now stamp] r] vs IH]; intros db.
  - exists []. rewrite app_nil_r. split; [reflexivity | constructor].
  - simpl. rewrite ViewProofs.route_takes_token_for_anonymous
      by (intros t c _ Hc; now apply (Hv t c)).
    destruct (fetch_grows oid now stamp
                {| id := params_id r; userId := None; userIP := remoteAddress r |} db i)
      as (e1 & H1 & _ & _ & F1).
    destruct (IH (snd (getProperty oid now stamp
                         {| id := params_id r; userId := None;
                            userIP := remoteAddress r |} db)))
      as (e2 & G1 & F2).
    exists (e1 ++ e2)%list. rewrite G1, H1, app_assoc.
    split; [reflexivity|]. apply Forall_app. now split.
Qed.

Lemma counter_matches_records_witness :
  views (ViewProofs.run ViewProofs.hex24
           [(1000, 1000, ViewProofs.anonymous "10.0.0.7");
            (2000, 2000, ViewProofs.anonymous "10.0.0.8")]
           ViewProofs.fresh) ViewProofs.p1
  = Z.of_nat
      (length (viewRecords
                 (ViewProofs.run ViewProofs.hex24
                    [(1000, 1000, ViewProofs.anonymous "10.0.0.7");
                     (2000, 2000, ViewProofs.anonymous "10.0.0.8")]
                    ViewProofs.fresh) ViewProofs.p1)).
Proof.
  unfold views, viewRecords.
  destruct (properties
              (ViewProofs.run ViewProofs.hex24
                 [(1000, 1000, ViewProofs.anonymous "10.0.0.7");
                  (2000, 2000, ViewProofs.anonymous "10.0.0.8")]
                 ViewProofs.fresh) !! ViewProofs.p1) as [q|] eqn:Hq; [|reflexivity].
  apply (counter_matches_records ViewProofs.hex24
           [(1000, 1000, ViewProofs.anonymous "10.0.0.7");
            (2000, 2000, ViewProofs.anonymous "10.0.0.8")] ViewProofs.fresh)
    with (i := ViewProofs.p1); [|exact Hq].
  intros i p. unfold ViewProofs.fresh. simpl.
  destruct (decide (i = ViewProofs.p1)) as [->|Hne].
  - rewrite lookup_singleton_eq. intros [= <-]. reflexivity.
  - rewrite lookup_singleton_ne by congruence. discriminate.
Defined.

(** A key under which only the token of the owner [o1] verifies. *)
Definition verifyO1 (token : string) : option Claims :=
  if String.eqb token "token-of-o1"
  then Some (ViewProofs.payloadOf ViewProofs.o1 "owner") else None.

Lemma owner_fetch_is_counted_witness :
  views (snd (getPropertyRoute verifyO1 ViewProofs.hex24 1000 1001
                {| params_id := ViewProofs.p1; authorization := Some "token-of-o1";
                   remoteAddress := "10.0.0.7" |} ViewProofs.fresh)) ViewProofs.p1
  = views ViewProofs.fresh ViewProofs.p1 + 1.
Proof.
  apply (owner_fetch_is_counted verifyO1 ViewProofs.hex24 1000 1001 ViewProofs.fresh
           ViewProofs.p1 "token-of-o1" "10.0.0.7"
           (ViewProofs.payloadOf ViewProofs.o1 "owner")
           {| owner := ViewProofs.o1; isActive := true; isVisible := true; viewedBy := [];
              analytics_views := 0; analytics_bookings := 0 |}).
  - reflexivity.
  - apply ViewProofs.payloadOf_fields.
  - apply ViewProofs.payloadOf_fields.
  - reflexivity.
  - intros v [].
Defined.

Lemma view_records_name_no_user_witness :
  exists extra,
    viewRecords
      (serve ViewProofs.verifyU1 ViewProofs.hex24
         [(1000, 1001, {| params_id := ViewProofs.p1;
                          authorization := Some "token-of-u1";
                          remoteAddress := "10.0.0.7" |});
          (2000, 2001, {| params_id := ViewProofs.p1; authorization := None;
                          remoteAddress := "10.0.0.8" |})]
         ViewProofs.fresh) ViewProofs.p1
    = (viewRecords ViewProofs.fresh ViewProofs.p1 ++ extra)%list
    /\ Forall (fun v => view_user v = None) extra.
Proof.
  apply view_records_name_no_user.
  intros t c. unfold ViewProofs.verifyU1.
  destruct (String.eqb t "token-of-u1"); [|discriminate].
  intros [= <-]. apply ViewProofs.payloadOf_fields.
Defined.

End ViewInvariants.

(** ** Bookings: the status update and what a visit request keeps *)

Module BookingStatusProofs.

Import Bookings BookingStatus.

Definition replaced (b' : Booking) (db : Store) : Store :=
  with_bookings (map (fun x => if String.eqb (booking_id x) (booking_id b') then b' else x)) db.

(** What the update can do: leave the store and answer something other
    than 200, or save the new status of the booking found and answer 200. *)
Lemma status_update_cases (req : StatusRequest) (db : Store) :
  (snd (updateBookingStatus req db) = db
   /\ code (fst (updateBookingStatus req db)) <> 200)
  \/ exists b p,
       str_in (status_value req) ["pending"; "confirmed"; "cancelled"; "completed"] = true
       /\ find (fun b => String.eqb (booking_id b) (status_id req)) (bookings db) = Some b
       /\ find (fun q => String.eqb (property_id q) (property b)) (properties db) = Some p
       /\ property_owner p = status_user req
       /\ validBooking (set_status (status_value req) b) = true
       /\ updateBookingStatus req db
          = (Respond 200 (Document (set_status (status_value req) b)),
             replaced (set_status (status_value req) b) db).
Proof.
  unfold updateBookingStatus, tryCatch, mbind, Eff_bind, Booking_findById,
    Property_findById, reads, status_errors.
  destruct (str_in (status_value req) _) eqn:Hv; [|left; split; [reflexivity|discriminate]].
  destruct (find (fun b => String.eqb (booking_id b) (status_id req)) (bookings db))
    as [b|] eqn:Hb; [|left; split; [reflexivity|discriminate]].
  destruct (find (fun q => String.eqb (property_id q) (property b)) (properties db))
    as [p|] eqn:Hp; [|left; split; [reflexivity|discriminate]].
  destruct (String.eqb (property_owner p) (status_user req)) eqn:Ho;
    [|left; split; [reflexivity|discriminate]].
  apply String.eqb_eq in Ho. cbv beta iota delta [negb]. unfold Booking_update.
  destruct (validBooking (set_status (status_value req) b)) eqn:Hval;
    [|left; split; [reflexivity|discriminate]].
  right. exists b, p. repeat split; auto.
Qed.

(** X18. A status update that is not answered 200 has written nothing: a
    request with a status outside the four, for a booking that does not
    exist, or by a user who does not own the booked property leaves the
    store as it was. *)
Theorem refused_status_update_writes_nothing (req : StatusRequest) (db : Store) :
  code (fst (updateBookingStatus req db)) <> 200 ->
  snd (updateBookingStatus req db) = db.
Proof.
  intros Hc. destruct (status_update_cases req db) as [[H _] | (b & p & _ & _ & _ & _ & _ & E)];
    [exact H|].
  rewrite E in Hc. simpl in Hc. congruence.
Qed.

Lemma refused_status_update_writes_nothing_witness :
  snd (updateBookingStatus
         {| status_user := "o2"; status_id := "b1"; status_value := "confirmed" |}
         BookingProofs.store)
  = BookingProofs.store.
Proof.
  apply refused_status_update_writes_nothing. simpl. discriminate.
Defined.

Lemma validBooking_set_status (s : string) (b : Booking) :
  str_in s ["pending"; "confirmed"; "cancelled"; "completed"] = true ->
  validBooking b = true -> validBooking (set_status s b) = true.
Proof.
  intros Hs. unfold validBooking. cbn -[str_in String.eqb]. rewrite Hs.
  rewrite !andb_true_iff. intuition.
Qed.

Lemma In_replaced_other (b' x : Booking) (bs : list Booking) :
  booking_id x <> booking_id b' ->
  In x (map (fun y => if String.eqb (booking_id y) (booking_id b') then b' else y) bs)
  <-> In x bs.
Proof.
  intros Hne. rewrite in_map_iff. split.
  - intros (y & Hy & Hin). destruct (String.eqb (booking_id y) (booking_id b')); subst.
    + contradiction.
    + exact Hin.
  - intros Hin. exists x. split; [|exact Hin].
    destruct (String.eqb (booking_id x) (booking_id b')) eqn:E; [|reflexivity].
    apply String.eqb_eq in E. contradiction.
Qed.

(** X19. For one of the four statuses, a stored booking that passes the schema
    and the owner of its property: the update is answered 200 with the
    booking in its new status, the booking is stored in that status, and
    the bookings with another id are exactly those stored before. *)
Theorem status_update_by_owner (req : StatusRequest) (db : Store) (b : Booking)
    (p : Property) :
  str_in (status_value req) ["pending"; "confirmed"; "cancelled"; "completed"] = true ->
  find (fun b => String.eqb (booking_id b) (status_id req)) (bookings db) = Some b ->
  find (fun q => String.eqb (property_id q) (property b)) (properties db) = Some p ->
  property_owner p = status_user req ->
  validBooking b = true ->
  fst (updateBookingStatus req db) = Respond 200 (Document (set_status (status_value req) b))
  /\ find (fun b => String.eqb (booking_id b) (status_id req))
       (bookings (snd (updateBookingStatus req db)))
     = Some (set_status (status_value req) b)
  /\ length (bookings (snd (updateBookingStatus req db))) = length (bookings db)
  /\ (forall x, booking_id x <> status_id req ->
        In x (bookings (snd (updateBookingStatus req db))) <-> In x (bookings db)).
Proof.
  intros Hs Hb Hp Ho Hv.
  pose proof (validBooking_set_status _ _ Hs Hv) as Hv'.
  apply find_some in Hb as Hid. destruct Hid as [_ Hid]. apply String.eqb_eq in Hid.
  destruct (status_update_cases req db)
    as [[_ Hc] | (b0 & p0 & _ & Hb0 & Hp0 & _ & _ & E)].
  - exfalso. apply Hc.
    unfold updateBookingStatus, tryCatch, mbind, Eff_bind, Booking_findById,
      Property_findById, reads, status_errors.
    rewrite Hs, Hb, Hp, Ho, String.eqb_refl. cbv beta iota delta [negb].
    unfold Booking_update. rewrite Hv'. reflexivity.
  - rewrite Hb in Hb0. injection Hb0 as <-. rewrite E. simpl.
    split; [reflexivity|]. split; [|split].
    + apply (BookingProofs.find_replaced (status_id req) b
               (set_status (status_value req) b)); assumption.
    + apply length_map.
    + intros x Hx. apply (In_replaced_other (set_status (status_value req) b) x).
      simpl. congruence.
Qed.

Lemma status_update_by_owner_witness :
  fst (updateBookingStatus
         {| status_user := "o1"; status_id := "b1"; status_value := "cancelled" |}
         BookingProofs.store)
  = Respond 200 (Document (set_status "cancelled" BookingProofs.visitA))
  /\ find (fun b => String.eqb (booking_id b) "b1")
       (bookings (snd (updateBookingStatus
                         {| status_user := "o1"; status_id := "b1";
                            status_value := "cancelled" |} BookingProofs.store)))
     = Some (set_status "cancelled" BookingProofs.visitA).
Proof.
  destruct (status_update_by_owner
              {| status_user := "o1"; status_id := "b1"; status_value := "cancelled" |}
              BookingProofs.store BookingProofs.visitA
              {| property_id := "p1"; property_owner := "o1" |})
    as (H1 & H2 & _); try reflexivity.
  split; [exact H1 | exact H2].
Defined.

Lemma filter_nothing {A} (f : A -> bool) (l : list A) :
  (forall x, In x l -> f x = false) -> List.filter f l = [].
Proof.
  induction l as [|x l IH]; intros H; [reflexivity|].
  simpl. rewrite (H x (or_introl eq_refl)). apply IH.
  intros y Hy. apply H. now right.
Qed.

Section Visits.

Variable newDate : string -> option Z.
Variable newId : string.

(** What a visit request can do to the store: nothing, or append the
    document built from it when the tenant has no open visit of the
    property. *)
Lemma visit_cases (req : VisitRequest) (db : Store) :
  snd (scheduleVisit newDate newId req db) = db
  \/ exists p,
       find (existingVisitFilter (visit_user req) (visit_property req)) (bookings db) = None
       /\ snd (scheduleVisit newDate newId req db)
          = with_bookings
              (fun bs => (bs ++ [BookingProofs.requested newDate newId req p])%list) db.
Proof.
  unfold scheduleVisit, tryCatch, mbind, Eff_bind, Property_findById, reads.
  destruct (visit_errors req); [|now left].
  destruct (find (fun p => String.eqb (property_id p) (visit_property req)) (properties db))
    as [p|]; [|now left].
  destruct (find (existingVisitFilter (visit_user req) (visit_property req)) (bookings db))
    eqn:Hb; [now left|].
  cbv beta iota. fold (BookingProofs.requested newDate newId req p).
  unfold Booking_insert.
  destruct (validBooking (BookingProofs.requested newDate newId req p)); [|now left].
  right. exists p. split; reflexivity.
Qed.

(** The open visits a tenant has of a property. *)
Definition openVisits (u p : string) (db : Store) : list Booking :=
  List.filter (existingVisitFilter u p) (bookings db).

(** X21. Visit requests keep every tenant at one open visit per property at
    most: when no tenant has two pending or confirmed visits of one
    property, none has after [POST /visit], whatever the request. *)
Theorem one_open_visit_per_tenant (req : VisitRequest) (db : Store) :
  (forall u p, (length (openVisits u p db) <= 1)%nat) ->
  forall u p,
    (length (openVisits u p (snd (scheduleVisit newDate newId req db))) <= 1)%nat.
Proof.
  intros Hinv u p. destruct (visit_cases req db) as [-> | (q & Hnone & ->)]; [apply Hinv|].
  unfold openVisits. simpl. rewrite List.filter_app, length_app. simpl.
  destruct (existingVisitFilter u p (BookingProofs.requested newDate newId req q)) eqn:E.
  - unfold existingVisitFilter in E. simpl in E.
    apply andb_true_iff in E as [E _]. apply andb_true_iff in E as [E _].
    apply andb_true_iff in E as [Eu Ep].
    apply String.eqb_eq in Eu, Ep. subst u p.
    assert (List.filter (existingVisitFilter (visit_user req) (visit_property req))
              (bookings db) = []) as ->; [|simpl; lia].
    apply filter_nothing. apply find_none. exact Hnone.
  - simpl. specialize (Hinv u p). unfold openVisits in Hinv. lia.
Qed.

(** X20. Once the owner has closed a tenant's open visit the tenant may ask
    again: when every open visit the tenant has of the property carries
    the id the owner's update names, and the update to "cancelled" or
    "completed" is answered 200, the tenant's next visit request for the
    property is not refused as a duplicate. *)
Theorem closing_a_visit_unblocks_the_tenant (visit : VisitRequest) (req : StatusRequest)
    (db : Store) :
  (forall x, In x (bookings db) ->
     existingVisitFilter (visit_user visit) (visit_property visit) x = true ->
     booking_id x = status_id req) ->
  status_value req = "cancelled" \/ status_value req = "completed" ->
  code (fst (updateBookingStatus req db)) = 200 ->
  fst (scheduleVisit newDate newId visit (snd (updateBookingStatus req db)))
  <> AlreadyPending.
Proof.
  intros Hown Hs Hc.
  destruct (status_update_cases req db)
    as [[_ Hne] | (b & p & _ & Hb & _ & _ & _ & E)]; [contradiction|].
  rewrite E. simpl.
  apply find_some in Hb as Hid. destruct Hid as [_ Hid]. apply String.eqb_eq in Hid.
  assert (Hnone : find (existingVisitFilter (visit_user visit) (visit_property visit))
                    (bookings (replaced (set_status (status_value req) b) db)) = None).
  { apply find_None_iff. intros x Hin. simpl in Hin.
    apply in_map_iff in Hin as (y & Hy & Hin). simpl in Hy.
    destruct (String.eqb (booking_id y) (booking_id b)) eqn:Ey.
    - subst x. unfold existingVisitFilter. simpl.
      destruct Hs as [-> | ->]; simpl; now rewrite andb_false_r.
    - subst x. destruct (existingVisitFilter _ _ y) eqn:Ef; [|reflexivity].
      rewrite (Hown y Hin Ef), <- Hid, String.eqb_refl in Ey. discriminate. }
  unfold scheduleVisit, tryCatch, mbind, Eff_bind, Property_findById, reads.
  destruct (visit_errors visit); [|simpl; discriminate].
  destruct (find _ (properties (replaced (set_status (status_value req) b) db)));
    [|simpl; discriminate].
  rewrite Hnone. cbv beta iota. unfold Booking_insert.
  match goal with |- context [validBooking ?x] => destruct (validBooking x) end;
    simpl; discriminate.
Qed.

End Visits.

Lemma one_open_visit_per_tenant_witness :
  (length (openVisits "tB" "p1"
             (snd (scheduleVisit BookingProofs.calendar "b2"
                     (BookingProofs.visitRequest "tB") BookingProofs.store))) <= 1)%nat.
Proof.
  apply (one_open_visit_per_tenant BookingProofs.calendar "b2").
  intros u p. unfold openVisits. simpl.
  destruct (existingVisitFilter u p BookingProofs.visitA); simpl; lia.
Defined.

(** Tenant "tA" is refused while the visit "b1" is pending, and accepted
    after the owner has cancelled it. *)
Lemma closing_a_visit_unblocks_the_tenant_witness :
  fst (scheduleVisit BookingProofs.calendar "b2" (BookingProofs.visitRequest "tA")
         BookingProofs.store) = AlreadyPending
  /\ fst (scheduleVisit BookingProofs.calendar "b2" (BookingProofs.visitRequest "tA")
            (snd (updateBookingStatus
                    {| status_user := "o1"; status_id := "b1";
                       status_value := "cancelled" |} BookingProofs.store)))
     <> AlreadyPending.
Proof.
  split; [reflexivity|].
  apply (closing_a_visit_unblocks_the_tenant BookingProofs.calendar "b2").
  - intros x [<-|[]] _. reflexivity.
  - left. reflexivity.
  - reflexivity.
Defined.

End BookingStatusProofs.

(** ** Soft deletion and the detail route *)

Module PropertyAdminProofs.

Import Views PropertyAdmin.

Section Delete.

Variable isObjectId : string -> bool.
Variable passesSchema : string -> bool.



End Delete.


End PropertyAdminProofs.

(** ** Visibility and the owner analytics *)

Module VisibilityProofs.

Import Analytics Visibility.

Lemma updateFirst_untouched {A} (m : A -> bool) (f : A -> A) (l : list A) :
  (forall x, In x l -> m x = false) -> updateFirst m f l = l.
Proof.
  induction l as [|x l IH]; intros H; [reflexivity|].
  simpl. rewrite (H x (or_introl eq_refl)). f_equal. apply IH.
  intros y Hy. apply H. now right.
Qed.

(** A filter that rejects what the update matches, before and after the
    change, sees the same list. *)
Lemma filter_updateFirst {A} (m keep : A -> bool) (f : A -> A) (l : list A) :
  (forall x, m x = true -> keep x = false /\ keep (f x) = false) ->
  List.filter keep (updateFirst m f l) = List.filter keep l.
Proof.
  intros H. induction l as [|x l IH]; [reflexivity|].
  simpl. destruct (m x) eqn:E.
  - destruct (H x E) as [H1 H2]. simpl. now rewrite H1, H2.
  - simpl. now rewrite IH.
Qed.

(** With distinct ids, the update replaces the one document of that id. *)
Lemma In_updateFirst (userId i : string) (v : bool) (p x : Property) (l : list Property) :
  NoDup (map property_id l) ->
  find (ownedBy userId i) l = Some p ->
  In x (updateFirst (ownedBy userId i) (set_isVisible v) l)
  <-> x = set_isVisible v p \/ (In x l /\ property_id x <> i).
Proof.
  induction l as [|y l IH]; [discriminate|].
  intros Hnd Hf. apply NoDup_cons in Hnd as [Hy Hnd]. simpl in Hf. simpl.
  destruct (ownedBy userId i y) eqn:E.
  - injection Hf as <-. unfold ownedBy in E. apply andb_true_iff in E as [Ei _].
    apply String.eqb_eq in Ei. simpl. split.
    + intros [<-|Hin]; [now left|]. right. split; [now right|].
      intros Hx. apply Hy. apply list_elem_of_In, in_map_iff. exists x. split; congruence.
    + intros [->|[[<-|Hin] Hne]]; [now left | contradiction | now right].
  - assert (Hpi : property_id p = i).
    { apply find_some in Hf as [_ Hp]. unfold ownedBy in Hp.
      apply andb_true_iff in Hp as [Hp _]. now apply String.eqb_eq in Hp. }
    assert (Hyi : property_id y <> i).
    { intros Hyi. apply Hy. apply find_some in Hf as [Hin _].
      apply list_elem_of_In, in_map_iff. exists p. split; [congruence | exact Hin]. }
    simpl. rewrite (IH Hnd Hf). split.
    + intros [<-|[->|[Hin Hne]]]; [right; split; [now left | exact Hyi] | now left |].
      right. split; [now right | exact Hne].
    + intros [->|[[<-|Hin] Hne]]; [right; now left | now left |].
      right. right. now split.
Qed.


(** X25. The visibility switch decides the row of the property in the owner's
    analytics: with distinct property ids, after the owner has set the
    visibility of a property, the property has a row in the analytics
    exactly when it was made visible and is active. *)
Theorem visibility_decides_analytics_row (oid : string -> bool) (o i : string)
    (v : bool) (db : Store) (p : Property) :
  NoDup (map property_id (properties db)) ->
  find (ownedBy o i) (properties db) = Some p ->
  In i (map pa_property
          (propertyAnalytics (ownerAnalytics o (snd (setVisibility oid o i v db)))))
  <-> v = true /\ isActive p = true.
Proof.
  intros Hnd Hf.
  assert (Hp : property_id p = i /\ property_owner p = o).
  { apply find_some in Hf as [_ Hp]. unfold ownedBy in Hp.
    apply andb_true_iff in Hp as [H1 H2]. now apply String.eqb_eq in H1, H2. }
  destruct Hp as [Hpi Hpo].
  unfold setVisibility, tryCatch, mbind, Eff_bind, queryById. rewrite Hf. simpl.
  rewrite map_map. simpl. rewrite in_map_iff. split.
  - intros (x & Hx & Hin). apply filter_In in Hin as [Hin Hk].
    apply (In_updateFirst o i v p x _ Hnd Hf) in Hin as [-> | [_ Hne]]; [|contradiction].
    simpl in Hk. apply andb_true_iff in Hk as [Hk Hv]. apply andb_true_iff in Hk as [_ Ha].
    now split.
  - intros [-> Ha]. exists (set_isVisible true p). split; [exact Hpi|].
    apply filter_In. split.
    + apply (In_updateFirst o i true p _ _ Hnd Hf). now left.
    + simpl. now rewrite Hpo, String.eqb_refl, Ha.
Qed.

(** X26. The switch of one owner is invisible to every other: the analytics of
    another owner are the same after it as before. *)
Theorem visibility_leaves_other_owners (oid : string -> bool) (o o' i : string)
    (v : bool) (db : Store) :
  o' <> o ->
  ownerAnalytics o' (snd (setVisibility oid o i v db)) = ownerAnalytics o' db.
Proof.
  intros Hne. unfold setVisibility, tryCatch, mbind, Eff_bind, queryById.
  destruct (find (ownedBy o i) (properties db)); [|destruct (oid i); reflexivity].
  simpl. unfold ownerAnalytics. simpl.
  rewrite (filter_updateFirst (ownedBy o i)
             (fun p => String.eqb (property_owner p) o' && isActive p && isVisible p)).
  - reflexivity.
  - intros x Hx. unfold ownedBy in Hx. apply andb_true_iff in Hx as [_ Hx].
    apply String.eqb_eq in Hx. simpl. rewrite Hx.
    assert (String.eqb o o' = false) as -> by (apply String.eqb_neq; congruence).
    now split.
Qed.

(** A store with two properties of owner [o1]. *)
Definition flat (i : string) (views : Z) : Property :=
  {| property_id := i; property_owner := ViewProofs.o1; isActive := true;
     isVisible := true; viewedBy_length := views; analytics_views := views;
     analytics_bookings := 0 |}.

Definition twoFlats : Store :=
  {| properties := [flat ViewProofs.p1 10; flat ViewProofs.p2 4];
     bookings := [{| booking_property := ViewProofs.p1; tokenAmount := 0%float |};
                  {| booking_property := ViewProofs.p2; tokenAmount := 0%float |};
                  {| booking_property := ViewProofs.p1; tokenAmount := 0%float |}];
     enquiries := [ViewProofs.p1]; favorites := [ViewProofs.p2; ViewProofs.p2];
     reviews := [{| review_property := ViewProofs.p1; rating := 4 |}] |}.


Lemma visibility_decides_analytics_row_witness :
  In ViewProofs.p1
    (map pa_property
       (propertyAnalytics
          (ownerAnalytics ViewProofs.o1
             (snd (setVisibility ViewProofs.hex24 ViewProofs.o1 ViewProofs.p1 true
                     twoFlats))))).
Proof.
  apply (visibility_decides_analytics_row ViewProofs.hex24 ViewProofs.o1 ViewProofs.p1
           true twoFlats (flat ViewProofs.p1 10)).
  - apply (bool_decide_unpack _). reflexivity.
  - reflexivity.
  - split; reflexivity.
Defined.

Lemma visibility_leaves_other_owners_witness :
  ownerAnalytics ViewProofs.o2
    (snd (setVisibility ViewProofs.hex24 ViewProofs.o1 ViewProofs.p1 false twoFlats))
  = ownerAnalytics ViewProofs.o2 twoFlats.
Proof. apply visibility_leaves_other_owners. discriminate. Defined.

End VisibilityProofs.

(** ** The totals of the owner analytics and its rows *)

Module AnalyticsTotals.

Import Analytics.

Lemma total_map_add {A} (f g : A -> Z) (l : list A) :
  AnalyticsProofs.total (map (fun x => f x + g x) l)
  = AnalyticsProofs.total (map f l) + AnalyticsProofs.total (map g l).
Proof. induction l as [|x l IH]; simpl; [reflexivity|]. rewrite IH. lia. Qed.

(** Among properties of distinct ids, an id names one property or none. *)
Lemma one_owner_of_an_id (k : string) (ps : list Property) :
  NoDup (map property_id ps) ->
  AnalyticsProofs.total
    (map (fun p => if String.eqb k (property_id p) then 1 else 0) ps)
  = if existsb (fun p => String.eqb k (property_id p)) ps then 1 else 0.
Proof.
  induction ps as [|p ps IH]; [reflexivity|].
  intros Hnd. apply NoDup_cons in Hnd as [Hp Hnd]. simpl. rewrite (IH Hnd).
  destruct (String.eqb k (property_id p)) eqn:E; [|reflexivity].
  apply String.eqb_eq in E. subst k. simpl.
  destruct (existsb (fun q => String.eqb (property_id p) (property_id q)) ps) eqn:Ex;
    [|reflexivity].
  exfalso. apply Hp. apply existsb_exists in Ex as (q & Hq & Heq).
  apply String.eqb_eq in Heq. apply list_elem_of_In, in_map_iff. now exists q.
Qed.

(** Counting the documents of a portfolio property by property. *)
Lemma count_by_property {A} (key : A -> string) (ps : list Property) (l : list A) :
  NoDup (map property_id ps) ->
  let mine := List.filter (fun x => existsb (fun p => String.eqb (key x) (property_id p)) ps) l in
  count mine = AnalyticsProofs.total (map (fun p => count (ofProperty key p mine)) ps).
Proof.
  intros Hnd. induction l as [|x l IH]; simpl.
  - unfold count, ofProperty. simpl. induction ps; simpl; [reflexivity|].
    apply NoDup_cons in Hnd as [_ Hnd]. now rewrite <- IHps.
  - destruct (existsb (fun p => String.eqb (key x) (property_id p)) ps) eqn:Ex;
      [|exact IH].
    simpl in IH.
    transitivity
      (AnalyticsProofs.total
         (map (fun p => (if String.eqb (key x) (property_id p) then 1 else 0)
                        + count (ofProperty key p
                                   (List.filter
                                      (fun x => existsb
                                         (fun p => String.eqb (key x) (property_id p)) ps) l)))
              ps)).
    + rewrite total_map_add, <- IH, (one_owner_of_an_id (key x) ps Hnd), Ex.
      unfold count. simpl. lia.
    + f_equal. apply map_ext. intros p. unfold ofProperty, count. simpl.
      destruct (String.eqb (key x) (property_id p)); simpl; lia.
Qed.

(** X27. With distinct property ids the totals of the owner analytics are the
    sums of its rows: properties, views, enquiries, bookings, favorites
    and reviews each add up over the per-property rows. *)
Theorem totals_are_sums_of_rows (o : string) (db : Store) :
  NoDup (map property_id (AnalyticsProofs.portfolio o db)) ->
  let a := ownerAnalytics o db in
  totalProperties a = count (propertyAnalytics a)
  /\ totalViews a = AnalyticsProofs.total (map pa_views (propertyAnalytics a))
  /\ totalEnquiries a = AnalyticsProofs.total (map pa_enquiries (propertyAnalytics a))
  /\ totalBookings a = AnalyticsProofs.total (map pa_bookings (propertyAnalytics a))
  /\ totalFavorites a = AnalyticsProofs.total (map pa_favorites (propertyAnalytics a))
  /\ totalReviews a = AnalyticsProofs.total (map pa_reviews (propertyAnalytics a)).
Proof.
  intros Hnd a. unfold a, ownerAnalytics. simpl.
  fold (AnalyticsProofs.portfolio o db). rewrite !map_map. simpl.
  split; [unfold count; now rewrite length_map|].
  split; [now rewrite AnalyticsProofs.fold_views|].
  split; [apply (count_by_property (fun e : string => e)); exact Hnd|].
  split; [apply (count_by_property booking_property); exact Hnd|].
  split; [apply (count_by_property (fun f : string => f)); exact Hnd|].
  apply (count_by_property review_property); exact Hnd.
Qed.

Lemma totals_are_sums_of_rows_witness :
  let a := ownerAnalytics ViewProofs.o1 VisibilityProofs.twoFlats in
  totalProperties a = count (propertyAnalytics a)
  /\ totalViews a = AnalyticsProofs.total (map pa_views (propertyAnalytics a))
  /\ totalEnquiries a = AnalyticsProofs.total (map pa_enquiries (propertyAnalytics a))
  /\ totalBookings a = AnalyticsProofs.total (map pa_bookings (propertyAnalytics a))
  /\ totalFavorites a = AnalyticsProofs.total (map pa_favorites (propertyAnalytics a))
  /\ totalReviews a = AnalyticsProofs.total (map pa_reviews (propertyAnalytics a)).
Proof.
  apply totals_are_sums_of_rows.
  apply (bool_decide_unpack _). reflexivity.
Defined.

End AnalyticsTotals.

(** ** The notification inbox *)

Module InboxProofs.

Import Inbox.

(** X28. After "read all" the user has no unread notification left; the
    notifications of every other user, the order and the ids are as
    before; and the answer is 200. *)
Theorem read_all_clears_the_inbox (userId : string) (ns : list Notification) :
  let ns' := snd (markAllRead userId ns) in
  code (fst (markAllRead userId ns)) = 200
  /\ unreadOf userId ns' = []
  /\ map notification_id ns' = map notification_id ns
  /\ (forall u, u <> userId ->
        List.filter (fun n => String.eqb (recipient n) u) ns'
        = List.filter (fun n => String.eqb (recipient n) u) ns).
Proof.
  simpl. split; [reflexivity|]. unfold unreadOf.
  induction ns as [|[i r k t m rd] ns (IH1 & IH2 & IH3)]; [repeat split|].
  split; [|split].
  - simpl. destruct (String.eqb r userId) eqn:E, rd; simpl; rewrite ?E; simpl; exact IH1.
  - simpl. destruct (String.eqb r userId) eqn:E, rd; simpl; rewrite IH2; reflexivity.
  - intros u Hu. specialize (IH3 u Hu). simpl.
    destruct (String.eqb r userId) eqn:E, rd; simpl; rewrite IH3; try reflexivity.
    apply String.eqb_eq in E. subst r.
    assert (String.eqb userId u = false) as -> by (apply String.eqb_neq; congruence).
    reflexivity.
Qed.


Lemma updateFirst_mark (userId i : string) (n : Notification) (ns : list Notification) :
  find (addressedTo userId i) ns = Some n ->
  find (addressedTo userId i) (updateFirst (addressedTo userId i) mark ns) = Some (mark n).
Proof.
  induction ns as [|x ns IH]; [discriminate|].
  simpl. destruct (addressedTo userId i x) eqn:E.
  - intros [= <-]. simpl. change (addressedTo userId i (mark x)) with (addressedTo userId i x).
    now rewrite E.
  - intros Hf. simpl. rewrite E. now apply IH.
Qed.

(** X30. Marking one's own notification: the answer is 200 with the
    notification read, the notification is stored read, and marking it
    a second time changes nothing more. *)
Theorem mark_read_is_idempotent (oid : string -> bool) (userId i : string)
    (n : Notification) (ns : list Notification) :
  find (addressedTo userId i) ns = Some n ->
  let ns' := snd (markRead oid userId i ns) in
  fst (markRead oid userId i ns) = Respond 200 (Document (mark n))
  /\ find (addressedTo userId i) ns' = Some (mark n)
  /\ snd (markRead oid userId i ns') = ns'.
Proof.
  intros Hf. unfold markRead, tryCatch, mbind, Eff_bind, queryById, modify.
  rewrite Hf. simpl.
  rewrite (updateFirst_mark userId i n ns Hf). simpl.
  split; [reflexivity|]. split; [reflexivity|].
  induction ns as [|x ns IH]; [discriminate|].
  simpl in *. destruct (addressedTo userId i x) eqn:E.
  - simpl. change (addressedTo userId i (mark x)) with (addressedTo userId i x).
    rewrite E. reflexivity.
  - simpl. rewrite E. f_equal. now apply IH.
Qed.

Definition n1 : string := "64a1f0c2b7e4d9a3c5f6e7d1".
Definition n2 : string := "64a1f0c2b7e4d9a3c5f6e7d2".

Definition inbox : list Notification :=
  [{| notification_id := n1; recipient := ViewProofs.u1; kind := "general";
      title := "Welcome"; message := ""; read := false |};
   {| notification_id := n2; recipient := ViewProofs.u2; kind := "visit_requested";
      title := "New visit request"; message := ""; read := false |}].


Lemma mark_read_is_idempotent_witness :
  let ns' := snd (markRead ViewProofs.hex24 ViewProofs.u2 n2 inbox) in
  fst (markRead ViewProofs.hex24 ViewProofs.u2 n2 inbox)
  = Respond 200 (Document {| notification_id := n2; recipient := ViewProofs.u2;
                             kind := "visit_requested"; title := "New visit request";
                             message := ""; read := true |})
  /\ find (addressedTo ViewProofs.u2 n2) ns'
     = Some {| notification_id := n2; recipient := ViewProofs.u2;
               kind := "visit_requested"; title := "New visit request";
               message := ""; read := true |}
  /\ snd (markRead ViewProofs.hex24 ViewProofs.u2 n2 ns') = ns'.
Proof.
  apply (mark_read_is_idempotent ViewProofs.hex24 ViewProofs.u2 n2
           {| notification_id := n2; recipient := ViewProofs.u2;
              kind := "visit_requested"; title := "New visit request";
              message := ""; read := false |} inbox).
  reflexivity.
Defined.

End InboxProofs.

(** ** What the booking routes never do *)

Module OmittedEffects.

Import Bookings.

(** X22. A visit request never notifies the owner: [Notification] is unbound
    in [bookings.js] and the inner [try] swallows the error, so whatever
    the request, no notification is stored and the properties are as
    before. *)
Theorem visit_never_notifies (newDate : string -> option Z) (newId : string)
    (req : VisitRequest) (db : Store) :
  notifications (snd (scheduleVisit newDate newId req db)) = notifications db
  /\ properties (snd (scheduleVisit newDate newId req db)) = properties db.
Proof.
  destruct (BookingStatusProofs.visit_cases newDate newId req db) as [-> | (p & _ & ->)];
    split; reflexivity.
Qed.

(** X23. No answer of the owner is ever acknowledged: whatever the request,
    [PUT /booking/:id/respond] is not answered 200 and stores no
    notification. *)
Theorem respond_never_succeeds (req : RespondRequest) (db : Store) :
  code (fst (respondToBooking req db)) <> 200
  /\ notifications (snd (respondToBooking req db)) = notifications db
  /\ properties (snd (respondToBooking req db)) = properties db.
Proof.
  unfold respondToBooking, tryCatch, mbind, Eff_bind, Booking_findById,
    Property_findById, reads.
  destruct (respond_errors req); [|repeat split; simpl; discriminate].
  destruct (find (fun b => String.eqb (booking_id b) (respond_id req)) (bookings db))
    as [b|]; [|repeat split; simpl; discriminate].
  destruct (find (fun q => String.eqb (property_id q) (property b)) (properties db))
    as [p|]; [|repeat split; simpl; discriminate].
  destruct (negb (String.eqb (property_owner p) (respond_user req)));
    [repeat split; simpl; discriminate|].
  unfold Booking_update.
  destruct (validBooking (set_status (respond_status req) b));
    repeat split; simpl; discriminate.
Qed.

End OmittedEffects.

(** ** Consultations: bookings made one after the other *)

Module DoubleBooking.

Import Consultations.

Section Sequence.

Variable clock : string -> option Z.
Variable app_io : bool.

Lemma find_app_Some {A} (f : A -> bool) (l l' : list A) (x : A) :
  find f l = Some x -> find f (l ++ l')%list = Some x.
Proof.
  induction l as [|y l IH]; [discriminate|].
  simpl. destruct (f y); [trivial | exact IH].
Qed.

(** X8. Booking never frees a slot: a window reported unavailable stays
    unavailable after any call of [bookConsultation]. *)
Theorem booking_never_frees_a_slot (req : BookRequest) (db : Store)
    (i : string) (d : Z) (s f : string) :
  checkAvailable (consultations db) i d s f = false ->
  checkAvailable (consultations (snd (bookConsultation clock app_io req db))) i d s f
  = false.
Proof.
  intros H.
  destruct (ConsultationInvariants.book_cases clock app_io req db)
    as [-> | (e & _ & _ & _ & _ & _ & ->)]; [exact H|].
  unfold checkAvailable in *. simpl.
  destruct (find (slotFilter i d s f) (consultations db)) as [c|] eqn:E; [|discriminate].
  now rewrite (find_app_Some _ _ _ _ E).
Qed.

(** X9. The answers of [bookConsultation] are 404, 400 and 500: no request,
    not even one whose consultation is stored, is answered 201. *)
Theorem booking_answer_codes (req : BookRequest) (db : Store) :
  In (code (fst (bookConsultation clock app_io req db))) [404; 400; 500].
Proof.
  destruct (find (fun e => String.eqb (expert_id e) (expertId req)) (experts db))
    as [e|] eqn:He.
  - destruct (checkAvailable (consultations db) (expertId req) (req_date req)
                (req_startTime req) (req_endTime req)) eqn:Ha.
    + rewrite (ConsultationProofs.book_available clock app_io req db e He Ha).
      destruct (save clock (ConsultationProofs.booked req e) db) as [[[]|err] db'];
        simpl; auto.
    + rewrite (ConsultationProofs.book_unavailable clock app_io req db e He Ha).
      simpl. auto.
  - rewrite (ConsultationProofs.book_no_expert clock app_io req db He). simpl. auto.
Qed.

(** X7. A stored booking blocks what overlaps it: when a first request has
    been stored, a second request for the same expert and date whose
    window overlaps the first half-open (each starts before the other
    ends) is answered slot-unavailable and stores nothing. *)
Theorem stored_booking_blocks_overlap (first second : BookRequest) (db : Store) :
  snd (bookConsultation clock app_io first db) <> db ->
  expertId second = expertId first ->
  req_date second = req_date first ->
  str_lt (req_startTime first) (req_endTime second) = true ->
  str_lt (req_startTime second) (req_endTime first) = true ->
  bookConsultation clock app_io second (snd (bookConsultation clock app_io first db))
  = (SlotUnavailable, snd (bookConsultation clock app_io first db)).
Proof.
  intros Hstored He Hd H1 H2.
  destruct (ConsultationInvariants.book_cases clock app_io first db)
    as [H | (e & Hfind & _ & _ & _ & _ & E)]; [contradiction|].
  rewrite E.
  apply (ConsultationProofs.book_unavailable clock app_io second _ e).
  - simpl. rewrite He. exact Hfind.
  - simpl. apply (ConsultationProofs.checkAvailable_blocked _
                    (ConsultationProofs.booked first e)).
    + apply in_or_app. right. now left.
    + apply ConsultationProofs.slotFilter_overlap.
      * simpl. congruence.
      * simpl. congruence.
      * simpl. discriminate.
      * split; assumption.
Qed.

End Sequence.

(** A store with the expert and no consultation yet. *)
Definition opened : Store :=
  {| experts := [ConsultationProofs.expert1]; consultations := [];
     communicationLogs := []; notifications := []; emitted := [] |}.

Lemma booking_never_frees_a_slot_witness :
  checkAvailable
    (consultations
       (snd (bookConsultation hhmm true (ConsultationProofs.request "16:00" "17:00")
               (ConsultationProofs.store confirmed))))
    "e1" ConsultationProofs.june1 "14:30" "15:30"
  = false.
Proof.
  apply (booking_never_frees_a_slot hhmm true). reflexivity.
Defined.

Lemma stored_booking_blocks_overlap_witness :
  bookConsultation hhmm true (ConsultationProofs.request "14:30" "15:30")
    (snd (bookConsultation hhmm true (ConsultationProofs.request "14:00" "15:00") opened))
  = (SlotUnavailable,
     snd (bookConsultation hhmm true (ConsultationProofs.request "14:00" "15:00") opened)).
Proof.
  apply (stored_booking_blocks_overlap hhmm true).
  - discriminate.
  - reflexivity.
  - reflexivity.
  - reflexivity.
  - reflexivity.
Defined.

End DoubleBooking.

(** ** Views: repeated anonymous fetches *)

Module ViewBursts.

Import Views.

(** An anonymous fetch of property [i] from [ip], made while the record
    [v] is less than 24 hours old. *)
Definition within (v : View) (i ip : string) (f : ViewProofs.Fetch) : Prop :=
  snd f = {| id := i; userId := None; userIP := ip |} /\ fst (fst f) - viewedAt v < day.

(** X15. A burst counts once: while a view record from an address is less than
    24 hours old, any number of anonymous fetches of the property from
    that address leave the store as it was. *)
Theorem anonymous_burst_counts_once (oid : string -> bool) (fs : list ViewProofs.Fetch)
    (db : Store) (i ip : string) (p : Property) (v : View) :
  properties db !! i = Some p ->
  In v (viewedBy p) ->
  ipAddress v = ip ->
  Forall (within v i ip) fs ->
  ViewProofs.run oid fs db = db.
Proof.
  intros Hp Hin Hip Hall.
  induction Hall as [|[[now stamp] req] fs [Hreq Ht] _ IH]; [reflexivity|].
  simpl in Hreq, Ht. subst req. simpl.
  assert (snd (getProperty oid now stamp {| id := i; userId := None; userIP := ip |} db)
          = db) as ->; [|exact IH].
  apply (ViewProofs.not_counted_store oid now stamp
           {| id := i; userId := None; userIP := ip |} db p Hp).
  unfold ViewProofs.counted. simpl.
  assert (existsb (viewedFromIP now ip) (viewedBy p) = true) as ->; [|reflexivity].
  apply existsb_exists. exists v. split; [exact Hin|].
  unfold viewedFromIP. rewrite Hip, String.eqb_refl. simpl. now apply Z.ltb_lt.
Qed.

Lemma anonymous_burst_counts_once_witness :
  ViewProofs.run ViewProofs.hex24
    [(2000, 2000, ViewProofs.anonymous "10.0.0.7");
     (3000, 3000, ViewProofs.anonymous "10.0.0.7");
     (4000, 4000, ViewProofs.anonymous "10.0.0.7")]
    ViewProofs.viewedOnce
  = ViewProofs.viewedOnce.
Proof.
  apply (anonymous_burst_counts_once ViewProofs.hex24 _ ViewProofs.viewedOnce
           ViewProofs.p1 "10.0.0.7"
           {| owner := ViewProofs.o1; isActive := true; isVisible := true;
              viewedBy := [{| view_user := None; viewedAt := 1000;
                              ipAddress := "10.0.0.7" |}];
              analytics_views := 1; analytics_bookings := 0 |}
           {| view_user := None; viewedAt := 1000; ipAddress := "10.0.0.7" |}).
  - reflexivity.
  - left. reflexivity.
  - reflexivity.
  - repeat constructor.
Defined.

End ViewBursts.
